(** * healthCoach relay: a shallow embedding of [proxy-server.js]

    The program is a single Node.js script: an HTTP server whose request
    listener answers CORS preflights, rejects methods other than POST,
    buffers and parses a JSON body and hands it to one of three provider
    adapters ([proxyToAnthropic], [proxyToOpenAI], [proxyToGoogle]), each of
    which reshapes the parsed body, issues one HTTPS request and relays the
    upstream answer.

    Layout of the development:
    - [JS]: the fragment of JavaScript values and abstract operations the
      script relies on (property reads, [||], template literals,
      [JSON.stringify]);
    - [Text]: [Buffer.prototype.toString] (UTF-8 decoding with replacement);
    - [Node]: the [http.ServerResponse] and [https.request] objects as
      explicit state, with a small state-and-exception monad;
    - [Reference]: executable instances of the platform functions the script
      calls but does not define ([JSON.parse], [url.parse], number
      printing, the checks of [https.request]), used to run the model on
      concrete requests;
    - [Relay]: the script itself, parametrised by those platform functions,
      the theorems about it, and its runs on the reference platform. *)

From Stdlib Require Import String Ascii List ZArith NArith Bool Floats Lia.
From Stdlib Require Import Strings.Byte DecimalString Uint63.
Import ListNotations.
Local Open Scope list_scope.
Local Open Scope string_scope.
Set Warnings "-register-all".

(** ** Strings

    A JavaScript string is represented by its UTF-8 encoding, held in a Rocq
    [string] (one [ascii] per byte).  The strings the script handles come
    from literals, from decoding a [Buffer], from error messages and from
    parsed JSON; they are well-formed text, for which the encoding is
    injective, but for an unpaired surrogate written as a JSON escape,
    which has no UTF-8 form and is outside this representation.  Writing a
    string to a socket writes exactly these bytes, and [Buffer.byteLength]
    is [String.length]. *)

Definition DQUOTE : ascii := "034"%char.
Definition BACKSLASH : ascii := "092"%char.

(** JSON texts are written in this file with apostrophes in the place of
    double quotes; [qq] puts the double quotes back. *)
Fixpoint qq (s : string) : string :=
  match s with
  | EmptyString => EmptyString
  | String c rest =>
      String (if Ascii.eqb c "'"%char then DQUOTE else c) (qq rest)
  end.

Fixpoint join (sep : string) (parts : list string) : string :=
  match parts with
  | [] => ""
  | [p] => p
  | p :: rest => p ++ sep ++ join sep rest
  end.

Definition lower_ascii (c : ascii) : ascii :=
  let n := nat_of_ascii c in
  if (65 <=? n)%nat && (n <=? 90)%nat then ascii_of_nat (n + 32) else c.

Fixpoint toLowerCase (s : string) : string :=
  match s with
  | EmptyString => EmptyString
  | String c rest => String (lower_ascii c) (toLowerCase rest)
  end.

Definition hex_digit (n : nat) : ascii :=
  if (n <? 10)%nat then ascii_of_nat (48 + n) else ascii_of_nat (87 + n).

(** ** JavaScript values and exceptions *)

Module JS.

Inductive value : Type :=
| VUndefined
| VNull
| VBool (b : bool)
| VNumber (n : float)
| VString (s : string)
| VArray (elements : list value)
| VObject (properties : list (string * value)).

Inductive exn : Type :=
| TypeError (message : string)
| SyntaxError (message : string)
| ReferenceError (message : string)
| RangeError (message : string)
| NodeError (code : string) (message : string).

Inductive result (A : Type) : Type :=
| Ok (a : A)
| Throw (e : exn).
Arguments Ok {A} a.
Arguments Throw {A} e.

Definition rbind {A B} (r : result A) (k : A -> result B) : result B :=
  match r with
  | Ok a => k a
  | Throw e => Throw e
  end.

(** The four properties of the parsed body that the adapters read. *)
Inductive InboundField : Type := model | messages | max_tokens | prompt.

Definition field_name (f : InboundField) : string :=
  match f with
  | model => "model"
  | messages => "messages"
  | max_tokens => "max_tokens"
  | prompt => "prompt"
  end.

Fixpoint lookup (k : string) (props : list (string * value)) : option value :=
  match props with
  | [] => None
  | (k', v) :: rest => if String.eqb k k' then Some v else lookup k rest
  end.

Definition hasOwnProperty (props : list (string * value)) (k : string) : bool :=
  match lookup k props with Some _ => true | None => false end.

(** [data.f] for one of the four names above.  Reading a property of
    [null] or [undefined] throws; on an object the own property is
    returned; none of the four names exists on [Object.prototype],
    [Array.prototype] or the wrapper prototypes of primitives, so every
    other read yields [undefined]. *)
Definition Get (data : value) (f : InboundField) : result value :=
  match data with
  | VUndefined =>
      Throw (TypeError ("Cannot read properties of undefined (reading '"
                          ++ field_name f ++ "')"))
  | VNull =>
      Throw (TypeError ("Cannot read properties of null (reading '"
                          ++ field_name f ++ "')"))
  | VObject props =>
      match lookup (field_name f) props with
      | Some v => Ok v
      | None => Ok VUndefined
      end
  | _ => Ok VUndefined
  end.

Definition nullish (v : value) : bool :=
  match v with
  | VUndefined | VNull => true
  | _ => false
  end.

(** ToBoolean *)
Definition ToBoolean (v : value) : bool :=
  match v with
  | VUndefined | VNull => false
  | VBool b => b
  | VNumber n => negb (PrimFloat.is_zero n || PrimFloat.is_nan n)
  | VString s => negb (String.eqb s "")
  | VArray _ | VObject _ => true
  end.

(** [a || b] on already evaluated operands (the right operand of the one
    use in the script is a literal). *)
Definition or (a b : value) : value := if ToBoolean a then a else b.

(** QuoteJSONString: the escapes [JSON.stringify] applies to a string. *)
Definition escape_char (c : ascii) : string :=
  let n := nat_of_ascii c in
  if Ascii.eqb c DQUOTE then String BACKSLASH (String DQUOTE "")
  else if Ascii.eqb c BACKSLASH then String BACKSLASH (String BACKSLASH "")
  else if (n =? 8)%nat then String BACKSLASH "b"
  else if (n =? 9)%nat then String BACKSLASH "t"
  else if (n =? 10)%nat then String BACKSLASH "n"
  else if (n =? 12)%nat then String BACKSLASH "f"
  else if (n =? 13)%nat then String BACKSLASH "r"
  else if (n <? 32)%nat then
    String BACKSLASH
      ("u00" ++ String (hex_digit (n / 16)) (String (hex_digit (n mod 16)) ""))
  else String c "".

Fixpoint escape (s : string) : string :=
  match s with
  | EmptyString => EmptyString
  | String c rest => escape_char c ++ escape rest
  end.

Definition QuoteJSONString (s : string) : string :=
  String DQUOTE (escape s ++ String DQUOTE "").

Definition is_finite (n : float) : bool :=
  negb (PrimFloat.is_nan n || PrimFloat.is_infinity n).

Section WithNumberToString.

(** Number::toString, the shortest decimal text that reads back as the
    same double; a platform function. *)
Variable Number_toString : float -> string.

(** SerializeJSONProperty.  [None] stands for [undefined]: the property
    is left out of an object and printed as [null] in an array. *)
Fixpoint SerializeJSONProperty (v : value) : option string :=
  match v with
  | VUndefined => None
  | VNull => Some "null"
  | VBool true => Some "true"
  | VBool false => Some "false"
  | VNumber n => Some (if is_finite n then Number_toString n else "null")
  | VString s => Some (QuoteJSONString s)
  | VArray elements =>
      let fix items (l : list value) : list string :=
        match l with
        | [] => []
        | e :: rest =>
            match SerializeJSONProperty e with
            | Some s => s
            | None => "null"
            end :: items rest
        end in
      Some ("[" ++ join "," (items elements) ++ "]")
  | VObject properties =>
      let fix members (l : list (string * value)) : list string :=
        match l with
        | [] => []
        | (k, e) :: rest =>
            match SerializeJSONProperty e with
            | Some s => (QuoteJSONString k ++ ":" ++ s) :: members rest
            | None => members rest
            end
        end in
      Some ("{" ++ join "," (members properties) ++ "}")
  end.

(** [JSON.stringify(v)] with no replacer and no indentation. *)
Definition JSON_stringify (v : value) : option string :=
  SerializeJSONProperty v.

(** ToString, as applied by a template literal.  An array prints its
    elements separated by commas, [null] and [undefined] elements as the
    empty string.  A plain object prints as [[object Object]] through
    the inherited [toString]; an own property of that name, which in
    parsed JSON is never callable, leaves only the inherited [valueOf],
    which returns the object itself, so the conversion throws. *)
Fixpoint ToString (v : value) : result string :=
  match v with
  | VUndefined => Ok "undefined"
  | VNull => Ok "null"
  | VBool true => Ok "true"
  | VBool false => Ok "false"
  | VNumber n => Ok (Number_toString n)
  | VString s => Ok s
  | VArray elements =>
      let fix items (l : list value) : result (list string) :=
        match l with
        | [] => Ok []
        | e :: rest =>
            rbind (if nullish e then Ok "" else ToString e) (fun s =>
            rbind (items rest) (fun ss => Ok (s :: ss)))
        end in
      rbind (items elements) (fun ss => Ok (join "," ss))
  | VObject properties =>
      if hasOwnProperty properties "toString"
      then Throw (TypeError "Cannot convert object to primitive value")
      else Ok "[object Object]"
  end.

End WithNumberToString.

End JS.

(** ** Buffers and text

    [chunk.toString()], and the implicit conversion in
    [responseBody += chunk], decode the bytes of one [Buffer] as UTF-8.  The
    decoder is the one of the Encoding standard: a byte that cannot start or
    continue a sequence ends the sequence under way, which is replaced by
    U+FFFD, and a sequence cut short by the end of the buffer is replaced by
    U+FFFD as well.  With strings held as UTF-8, decoding copies the
    well-formed sequences and writes [EF BF BD] for each replacement. *)

Module Text.

Definition Buffer : Type := list byte.

Definition REPLACEMENT : string :=
  String (ascii_of_nat 239) (String (ascii_of_nat 191) (String (ascii_of_nat 189) "")).

Inductive lead : Type :=
| Single
| Lead (needed : nat) (lower upper : N)
| Invalid.

Definition classify (b : N) : lead :=
  if (b <=? 127)%N then Single
  else if (194 <=? b)%N && (b <=? 223)%N then Lead 1 128 191
  else if (b =? 224)%N then Lead 2 160 191
  else if (b =? 237)%N then Lead 2 128 159
  else if (225 <=? b)%N && (b <=? 239)%N then Lead 2 128 191
  else if (b =? 240)%N then Lead 3 144 191
  else if (b =? 244)%N then Lead 3 128 143
  else if (241 <=? b)%N && (b <=? 243)%N then Lead 3 128 191
  else Invalid.

(** [decode pending needed lower upper bytes]: [pending] holds the bytes of
    the sequence under way, [needed] the number of continuation bytes still
    expected, [lower] and [upper] the range allowed for the next one. *)
Fixpoint decode (pending : string) (needed : nat) (lower upper : N)
  (bytes : Buffer) : string :=
  match bytes with
  | [] =>
      match needed with
      | O => ""
      | S _ => REPLACEMENT
      end
  | b :: rest =>
      let start :=
        match classify (Byte.to_N b) with
        | Single => String (ascii_of_byte b) (decode "" 0 128 191 rest)
        | Lead n lo hi => decode (String (ascii_of_byte b) "") n lo hi rest
        | Invalid => REPLACEMENT ++ decode "" 0 128 191 rest
        end in
      match needed with
      | O => start
      | S n =>
          if (lower <=? Byte.to_N b)%N && (Byte.to_N b <=? upper)%N then
            match n with
            | O => pending ++ String (ascii_of_byte b) (decode "" 0 128 191 rest)
            | S _ => decode (pending ++ String (ascii_of_byte b) "") n 128 191 rest
            end
          else REPLACEMENT ++ start
      end
  end.

(** [buf.toString()] with the default encoding. *)
Definition Buffer_toString (buf : Buffer) : string := decode "" 0 128 191 buf.

(** The bytes written to a socket for a string. *)
Definition bytes_of (s : string) : Buffer := list_byte_of_string s.

(** [Buffer.byteLength(s)] *)
Definition Buffer_byteLength (s : string) : Z := Z.of_nat (String.length s).

Definition is_ascii (b : byte) : bool := (Byte.to_N b <=? 127)%N.

Definition in_range (lower upper : N) (b : byte) : bool :=
  (lower <=? Byte.to_N b)%N && (Byte.to_N b <=? upper)%N.

(** Well-formed UTF-8: every lead byte is followed by the continuation
    bytes it announces, the first of them in the range the lead byte
    allows. *)
Fixpoint well_formed (bytes : Buffer) : bool :=
  match bytes with
  | [] => true
  | b :: rest =>
      match classify (Byte.to_N b) with
      | Single => well_formed rest
      | Lead 1 lower upper =>
          match rest with
          | c1 :: after => in_range lower upper c1 && well_formed after
          | _ => false
          end
      | Lead 2 lower upper =>
          match rest with
          | c1 :: c2 :: after =>
              in_range lower upper c1 && in_range 128 191 c2 && well_formed after
          | _ => false
          end
      | Lead 3 lower upper =>
          match rest with
          | c1 :: c2 :: c3 :: after =>
              in_range lower upper c1 && in_range 128 191 c2
              && in_range 128 191 c3 && well_formed after
          | _ => false
          end
      | _ => false
      end
  end.

End Text.

(** ** The Node.js objects the script talks to *)

Module Node.
Import JS.

Definition Headers : Type := list (string * string).

(** The calls made on the [http.ServerResponse] of one request, in order. *)
Inductive ResCall : Type :=
| SetHeader (name value : string)
| WriteHead (statusCode : Z) (headers : Headers)
| End (data : option string).

(** The [options] object given to [https.request]. *)
Record RequestOptions : Type := {
  hostname : string;
  port : Z;
  path : string;
  method : string;
  headers : list (string * value)
}.

(** An [http.ClientRequest]: its options, what was written to it, and
    whether [end()] was called. *)
Record ClientRequest : Type := {
  options : RequestOptions;
  written : string;
  ended : bool
}.

Inductive Provider : Type := Anthropic | OpenAI | Google.

(** The state one inbound request evolves: the calls made so far on its
    [res], the outbound requests created, and, once the response callback
    of the outbound request has run, the upstream status code with the
    closure variable [responseBody].  [dispatched] is a ghost log of the
    adapters entered. *)
Record State : Type := {
  res : list ResCall;
  outbound : list ClientRequest;
  proxyRes : option (Z * string);
  dispatched : list Provider
}.

Definition initial : State :=
  {| res := []; outbound := []; proxyRes := None; dispatched := [] |}.

Definition is_WriteHead (c : ResCall) : bool :=
  match c with WriteHead _ _ => true | _ => false end.

Definition is_End (c : ResCall) : bool :=
  match c with End _ => true | _ => false end.

Definition headersSent (log : list ResCall) : bool :=
  existsb (fun c => is_WriteHead c || is_End c) log.

Definition finished (log : list ResCall) : bool := existsb is_End log.

(** Header names are compared without regard to case; the name is sent as
    it was last given. *)
Fixpoint set_header (hs : Headers) (name value : string) : Headers :=
  match hs with
  | [] => [(name, value)]
  | (n, v) :: rest =>
      if String.eqb (toLowerCase n) (toLowerCase name)
      then (name, value) :: rest
      else (n, v) :: set_header rest name value
  end.

Definition set_headers (hs extra : Headers) : Headers :=
  fold_left (fun acc nv => set_header acc (fst nv) (snd nv)) extra hs.

(** What the caller receives: the status code, the headers set with
    [setHeader] and [writeHead], in the order in which Node sends them,
    and the body.  [headers_set] is not the whole header block: Node sends
    headers of its own after these ([Date], [Connection], [Keep-Alive],
    and [Transfer-Encoding] or [Content-Length]), which depend on the
    clock and on the connection and are left out. *)
Record Response : Type := {
  status : Z;
  headers_set : Headers;
  body : string
}.

Definition data_of (data : option string) : string :=
  match data with Some s => s | None => "" end.

(** The status codes with which [writeHead] clears [_hasBody]: 204, 304
    and 1xx. *)
Definition bodiless (statusCode : Z) : bool :=
  (statusCode =? 204)%Z || (statusCode =? 304)%Z
  || ((100 <=? statusCode)%Z && (statusCode <=? 199)%Z).

(** [_hasBody]: a response to a HEAD request has no body, nor has one
    with a bodiless status code; Node then drops the data given to
    [end]. *)
Definition hasBody (method : string) (statusCode : Z) : bool :=
  negb (String.eqb method "HEAD") && negb (bodiless statusCode).

Definition body_sent (method : string) (statusCode : Z) (data : option string) : string :=
  if hasBody method statusCode then data_of data else "".

Fixpoint await_end (method : string) (st : Z) (hs : Headers) (log : list ResCall)
  : option Response :=
  match log with
  | [] => None
  | End data :: _ =>
      Some {| status := st; headers_set := hs; body := body_sent method st data |}
  | _ :: rest => await_end method st hs rest
  end.

(** The response a log of calls amounts to, if it was completed, for a
    request with this method.  [end] without [writeHead] sends the
    implicit head, status 200. *)
Fixpoint await_head (method : string) (hs : Headers) (log : list ResCall)
  : option Response :=
  match log with
  | [] => None
  | SetHeader n v :: rest => await_head method (set_header hs n v) rest
  | WriteHead st extra :: rest => await_end method st (set_headers hs extra) rest
  | End data :: _ =>
      Some {| status := 200; headers_set := hs; body := body_sent method 200 data |}
  end.

Definition response_of (method : string) (log : list ResCall) : option Response :=
  await_head method [] log.

(** The number of responses started and the number completed. *)
Definition heads_written (log : list ResCall) : nat :=
  List.length (filter is_WriteHead log).

Definition ends_written (log : list ResCall) : nat :=
  List.length (filter is_End log).

(** *** A state and exception monad

    A computation runs on the state and either returns or throws; the
    state reached when it throws is kept, as in JavaScript. *)

Definition M (A : Type) : Type := State -> result A * State.

Definition ret {A} (a : A) : M A := fun s => (Ok a, s).

Definition bind {A B} (c : M A) (k : A -> M B) : M B :=
  fun s =>
    match c s with
    | (Ok a, s') => k a s'
    | (Throw e, s') => (Throw e, s')
    end.

Definition throw {A} (e : exn) : M A := fun s => (Throw e, s).

Definition lift {A} (r : result A) : M A := fun s => (r, s).

(** [try { c } catch (error) { h error }] *)
Definition try_catch {A} (c : M A) (h : exn -> M A) : M A :=
  fun s =>
    match c s with
    | (Ok a, s') => (Ok a, s')
    | (Throw e, s') => h e s'
    end.

Definition modify (f : State -> State) : M unit := fun s => (Ok tt, f s).

Definition gets {A} (f : State -> A) : M A := fun s => (Ok (f s), s).

Declare Scope js_scope.
Delimit Scope js_scope with js.
Notation "x <- c ;; k" := (bind c (fun x => k))
  (at level 61, c at next level, right associativity) : js_scope.
Notation "c ;; k" := (bind c (fun _ => k))
  (at level 61, right associativity) : js_scope.

Definition log_res (c : ResCall) : M unit :=
  modify (fun s => {| res := (res s ++ [c])%list; outbound := outbound s;
                      proxyRes := proxyRes s; dispatched := dispatched s |}).

(** [res.setHeader(name, value)] *)
Definition res_setHeader (name value : string) : M unit :=
  (sent <- gets (fun s => headersSent (res s)) ;;
   if sent
   then throw (NodeError "ERR_HTTP_HEADERS_SENT"
                 "Cannot set headers after they are sent to the client")
   else log_res (SetHeader name value))%js.

(** [res.writeHead(statusCode, headers)] *)
Definition res_writeHead (statusCode : Z) (hs : Headers) : M unit :=
  (sent <- gets (fun s => headersSent (res s)) ;;
   if sent
   then throw (NodeError "ERR_HTTP_HEADERS_SENT"
                 "Cannot write headers after they are sent to the client")
   else if (statusCode <? 100)%Z || (999 <? statusCode)%Z
   then throw (RangeError "Invalid status code")
   else log_res (WriteHead statusCode hs))%js.

(** [res.end(data)]; a second call is ignored. *)
Definition res_end (data : option string) : M unit :=
  (done <- gets (fun s => finished (res s)) ;;
   if done then ret tt else log_res (End data))%js.

(** [https.request(options, callback)]: a new [ClientRequest] with nothing
    written yet.  The checks Node applies to [options] itself are outside
    the embedding. *)
Definition https_request (o : RequestOptions) : M unit :=
  modify (fun s =>
    {| res := res s;
       outbound := (outbound s ++ [{| options := o; written := ""; ended := false |}])%list;
       proxyRes := proxyRes s; dispatched := dispatched s |}).

Definition on_last (f : ClientRequest -> ClientRequest) (l : list ClientRequest)
  : list ClientRequest :=
  match rev l with
  | [] => []
  | r :: before => (rev before ++ [f r])%list
  end.

(** [proxyReq.write(chunk)] and [proxyReq.end()] on the request just
    created. *)
Definition proxyReq_write (chunk : string) : M unit :=
  modify (fun s =>
    {| res := res s;
       outbound := on_last (fun r => {| options := options r;
                                        written := written r ++ chunk;
                                        ended := ended r |}) (outbound s);
       proxyRes := proxyRes s; dispatched := dispatched s |}).

Definition proxyReq_end : M unit :=
  modify (fun s =>
    {| res := res s;
       outbound := on_last (fun r => {| options := options r;
                                        written := written r;
                                        ended := true |}) (outbound s);
       proxyRes := proxyRes s; dispatched := dispatched s |}).

Definition set_proxyRes (p : option (Z * string)) : M unit :=
  modify (fun s => {| res := res s; outbound := outbound s;
                      proxyRes := p; dispatched := dispatched s |}).

Definition enter (p : Provider) : M unit :=
  modify (fun s => {| res := res s; outbound := outbound s;
                      proxyRes := proxyRes s;
                      dispatched := (dispatched s ++ [p])%list |}).

End Node.

(** ** Reference instances of the platform functions

    The script calls [JSON.parse], [url.parse] and, through
    [JSON.stringify] and template literals, Number::toString.  The theorems
    below hold for any functions in their place; the instances here are
    executable and serve to run the relay on concrete requests. *)

Module Reference.
Import JS.

(** *** Numbers *)

(** The double nearest to [m * 10 ^ e], ties to even, for [m > 0]. *)
Definition decimal_to_double (m : positive) (digits : Z) (e : Z) : float :=
  if (310 <=? e)%Z then infinity
  else if (e + digits <=? -330)%Z then zero
  else if (0 <=? e)%Z
  then SF2Prim (binary_normalize prec emax (Z.pos m * 10 ^ e) 0 false)
  else SF2Prim (SFdiv prec emax (S754_finite false m 0)
                  (S754_finite false (Z.to_pos (10 ^ (- e))) 0)).

Definition decimal_digits (z : Z) : string :=
  DecimalString.NilZero.string_of_uint (N.to_uint (Z.to_N z)).

Fixpoint zeros (n : nat) : string :=
  match n with
  | O => ""
  | S n' => String "0" (zeros n')
  end.

(** Smallest [n], searched upwards from [n], with [num / den < 10 ^ n]. *)
Fixpoint decimal_exponent (fuel : nat) (num den n : Z) : Z :=
  match fuel with
  | O => n
  | S fuel' =>
      if (if (0 <=? n)%Z then (num <? 10 ^ n * den)%Z
          else (num * 10 ^ (- n) <? den)%Z)
      then n
      else decimal_exponent fuel' num den (n + 1)%Z
  end.

(** The shortest digit string [s] of [k] digits, with its exponent [n],
    such that [s * 10 ^ (n - k)] reads back as [x]; the nearer one to [x]
    when two qualify, the even one in a tie. *)
Fixpoint shortest (fuel : nat) (x : float) (num den n0 k : Z) : Z * Z * Z :=
  let p := (k - n0)%Z in
  let a := if (0 <=? p)%Z then (num * 10 ^ p)%Z else num in
  let b := if (0 <=? p)%Z then den else (den * 10 ^ (- p))%Z in
  let lo := (a / b)%Z in
  let hi := (lo + 1)%Z in
  let reads s :=
    (0 <? s)%Z && PrimFloat.eqb (decimal_to_double (Z.to_pos s) k (- p)) x in
  let pick s := if (s =? 10 ^ k)%Z then (10 ^ (k - 1), k, n0 + 1)%Z else (s, k, n0) in
  match fuel with
  | O => pick lo
  | S fuel' =>
      match reads lo, reads hi with
      | true, true =>
          let twice := (2 * (a mod b))%Z in
          if (twice <? b)%Z then pick lo
          else if (b <? twice)%Z then pick hi
          else if Z.even lo then pick lo else pick hi
      | true, false => pick lo
      | false, true => pick hi
      | false, false => shortest fuel' x num den n0 (k + 1)%Z
      end
  end.

Definition format_decimal (s k n : Z) : string :=
  let ds := decimal_digits s in
  if (k <=? n)%Z && (n <=? 21)%Z then ds ++ zeros (Z.to_nat (n - k))
  else if (0 <? n)%Z && (n <=? 21)%Z
  then substring 0 (Z.to_nat n) ds ++ "." ++ substring (Z.to_nat n) (Z.to_nat (k - n)) ds
  else if (-6 <? n)%Z && (n <=? 0)%Z
  then "0." ++ zeros (Z.to_nat (- n)) ++ ds
  else
    let e := (n - 1)%Z in
    let exponent := (if (e <? 0)%Z then "-" else "+") ++ decimal_digits (Z.abs e) in
    if (k =? 1)%Z then ds ++ "e" ++ exponent
    else substring 0 1 ds ++ "." ++ substring 1 (Z.to_nat (k - 1)) ds ++ "e" ++ exponent.

(** Number::toString in radix 10. *)
Definition Number_toString (x : float) : string :=
  match Prim2SF x with
  | S754_zero _ => "0"
  | S754_nan => "NaN"
  | S754_infinity neg => if neg then "-Infinity" else "Infinity"
  | S754_finite neg m e =>
      let num := if (0 <=? e)%Z then (Z.pos m * 2 ^ e)%Z else Z.pos m in
      let den := if (0 <=? e)%Z then 1%Z else (2 ^ (- e))%Z in
      let guess := ((Z.log2 (Z.pos m) + e) * 30103 / 100000 - 1)%Z in
      let n0 := decimal_exponent 4 num den guess in
      let '(s, k, n) := shortest 17 (PrimFloat.abs x) num den n0 1 in
      (if neg then "-" else "") ++ format_decimal s k n
  end.

(** *** JSON.parse

    A recursive-descent parser for the JSON grammar.  A [\u] escape of a
    surrogate that has no partner has no UTF-8 form; it is read as U+FFFD. *)

Definition is_ws (c : ascii) : bool :=
  let n := nat_of_ascii c in
  (n =? 32)%nat || (n =? 9)%nat || (n =? 10)%nat || (n =? 13)%nat.

Fixpoint skip_ws (s : string) : string :=
  match s with
  | String c rest => if is_ws c then skip_ws rest else s
  | EmptyString => s
  end.

Fixpoint strip_prefix (p s : string) : option string :=
  match p, s with
  | EmptyString, _ => Some s
  | String a p', String b s' => if Ascii.eqb a b then strip_prefix p' s' else None
  | String _ _, EmptyString => None
  end.

Definition digit_of (c : ascii) : option Z :=
  let n := nat_of_ascii c in
  if (48 <=? n)%nat && (n <=? 57)%nat then Some (Z.of_nat (n - 48)) else None.

Definition hex_of (c : ascii) : option N :=
  let n := nat_of_ascii c in
  if (48 <=? n)%nat && (n <=? 57)%nat then Some (N.of_nat (n - 48))
  else if (97 <=? n)%nat && (n <=? 102)%nat then Some (N.of_nat (n - 87))
  else if (65 <=? n)%nat && (n <=? 70)%nat then Some (N.of_nat (n - 55))
  else None.

Definition hex4 (a b c d : ascii) : option N :=
  match hex_of a, hex_of b, hex_of c, hex_of d with
  | Some x, Some y, Some z, Some w => Some (((x * 16 + y) * 16 + z) * 16 + w)%N
  | _, _, _, _ => None
  end.

Definition chr (n : N) : ascii := ascii_of_N n.

(** The UTF-8 encoding of a code point. *)
Definition utf8_encode (cp : N) : string :=
  if (cp <? 128)%N then String (chr cp) ""
  else if (cp <? 2048)%N
  then String (chr (192 + cp / 64)) (String (chr (128 + cp mod 64)) "")
  else if (55296 <=? cp)%N && (cp <=? 57343)%N then Text.REPLACEMENT
  else if (cp <? 65536)%N
  then String (chr (224 + cp / 4096))
         (String (chr (128 + (cp / 64) mod 64)) (String (chr (128 + cp mod 64)) ""))
  else String (chr (240 + cp / 262144))
         (String (chr (128 + (cp / 4096) mod 64))
            (String (chr (128 + (cp / 64) mod 64)) (String (chr (128 + cp mod 64)) ""))).

Definition simple_escape (c : ascii) : option ascii :=
  if Ascii.eqb c DQUOTE then Some DQUOTE
  else if Ascii.eqb c BACKSLASH then Some BACKSLASH
  else if Ascii.eqb c "/" then Some "/"%char
  else if Ascii.eqb c "b" then Some (ascii_of_nat 8)
  else if Ascii.eqb c "f" then Some (ascii_of_nat 12)
  else if Ascii.eqb c "n" then Some (ascii_of_nat 10)
  else if Ascii.eqb c "r" then Some (ascii_of_nat 13)
  else if Ascii.eqb c "t" then Some (ascii_of_nat 9)
  else None.

Definition prepend (p : string) (r : option (string * string)) : option (string * string) :=
  match r with
  | Some (str, rest) => Some (p ++ str, rest)
  | None => None
  end.

(** The characters of a string literal after its opening quote, up to and
    including the closing quote. *)
Fixpoint parse_chars (s : string) : option (string * string) :=
  match s with
  | EmptyString => None
  | String c rest =>
      if Ascii.eqb c DQUOTE then Some ("", rest)
      else if Ascii.eqb c BACKSLASH then
        match rest with
        | String e rest1 =>
            if Ascii.eqb e "u" then
              match rest1 with
              | String h1 (String h2 (String h3 (String h4 rest2))) =>
                  match hex4 h1 h2 h3 h4 with
                  | None => None
                  | Some u =>
                      let alone := prepend (utf8_encode u) (parse_chars rest2) in
                      if (55296 <=? u)%N && (u <=? 56319)%N then
                        match rest2 with
                        | String b (String v (String l1 (String l2 (String l3 (String l4 rest3))))) =>
                            if Ascii.eqb b BACKSLASH && Ascii.eqb v "u" then
                              match hex4 l1 l2 l3 l4 with
                              | Some w =>
                                  if (56320 <=? w)%N && (w <=? 57343)%N
                                  then prepend
                                         (utf8_encode (65536 + (u - 55296) * 1024 + (w - 56320)))
                                         (parse_chars rest3)
                                  else alone
                              | None => alone
                              end
                            else alone
                        | _ => alone
                        end
                      else alone
                  end
              | _ => None
              end
            else
              match simple_escape e with
              | Some x => prepend (String x "") (parse_chars rest1)
              | None => None
              end
        | EmptyString => None
        end
      else if (nat_of_ascii c <? 32)%nat then None
      else prepend (String c "") (parse_chars rest)
  end.

(** A run of decimal digits: its value, its length and what follows. *)
Fixpoint take_digits (acc : Z) (count : Z) (s : string) : Z * Z * string :=
  match s with
  | String c rest =>
      match digit_of c with
      | Some d => take_digits (acc * 10 + d) (count + 1) rest
      | None => (acc, count, s)
      end
  | EmptyString => (acc, count, s)
  end.

Definition starts_with_zero (s : string) : bool :=
  match s with
  | String c _ => Ascii.eqb c "0"
  | EmptyString => false
  end.

Definition parse_exponent (s : string) : option (Z * string) :=
  match s with
  | String c rest =>
      if Ascii.eqb c "e" || Ascii.eqb c "E" then
        let '(neg, rest1) :=
          match rest with
          | String sign rest' =>
              if Ascii.eqb sign "-" then (true, rest')
              else if Ascii.eqb sign "+" then (false, rest')
              else (false, rest)
          | EmptyString => (false, rest)
          end in
        let '(e, count, rest2) := take_digits 0 0 rest1 in
        if (count =? 0)%Z then None
        else Some (if neg then (- e)%Z else e, rest2)
      else Some (0%Z, s)
  | EmptyString => Some (0%Z, s)
  end.

Definition parse_number (s : string) : option (float * string) :=
  let '(neg, s1) :=
    match s with
    | String c rest => if Ascii.eqb c "-" then (true, rest) else (false, s)
    | EmptyString => (false, s)
    end in
  let '(int, icount, s2) := take_digits 0 0 s1 in
  if (icount =? 0)%Z || (starts_with_zero s1 && (1 <? icount)%Z) then None
  else
    let fraction :=
      match s2 with
      | String c rest =>
          if Ascii.eqb c "." then
            let '(m, fcount, s3) := take_digits int 0 rest in
            if (fcount =? 0)%Z then None else Some (m, fcount, s3)
          else Some (int, 0%Z, s2)
      | EmptyString => Some (int, 0%Z, s2)
      end in
    match fraction with
    | None => None
    | Some (m, fcount, s3) =>
        match parse_exponent s3 with
        | None => None
        | Some (e, s4) =>
            let x :=
              match m with
              | Zpos p =>
                  decimal_to_double p
                    (Z.of_nat (String.length (decimal_digits m))) (e - fcount)
              | _ => zero
              end in
            Some (if neg then PrimFloat.opp x else x, s4)
        end
    end.

Definition array_index (k : string) : option Z :=
  let '(n, count, rest) := take_digits 0 0 k in
  if String.eqb rest "" && (0 <? count)%Z
     && negb (starts_with_zero k && (1 <? count)%Z)
     && (n <=? 4294967294)%Z
  then Some n else None.

(** CreateDataProperty: a key already present keeps its place and takes
    the new value. *)
Fixpoint define (props : list (string * value)) (k : string) (v : value)
  : list (string * value) :=
  match props with
  | [] => [(k, v)]
  | (k', v') :: rest =>
      if String.eqb k k' then (k, v) :: rest else (k', v') :: define rest k v
  end.

Fixpoint insert_index (i : Z) (kv : string * value) (l : list (Z * (string * value)))
  : list (Z * (string * value)) :=
  match l with
  | [] => [(i, kv)]
  | (j, kv') :: rest =>
      if (i <? j)%Z then (i, kv) :: l else (j, kv') :: insert_index i kv rest
  end.

(** The order in which an object lists its own keys: array indices in
    ascending order, then the other keys in order of creation. *)
Definition own_keys_order (props : list (string * value)) : list (string * value) :=
  let indexed :=
    fold_left (fun acc kv =>
                 match array_index (fst kv) with
                 | Some i => insert_index i kv acc
                 | None => acc
                 end) props [] in
  let named :=
    filter (fun kv => match array_index (fst kv) with Some _ => false | None => true end)
      props in
  (map snd indexed ++ named)%list.

Definition make_object (members : list (string * value)) : value :=
  VObject (own_keys_order
             (fold_left (fun acc kv => define acc (fst kv) (snd kv)) members [])).

Fixpoint parse_value (fuel : nat) (s : string) : option (value * string) :=
  match fuel with
  | O => None
  | S fuel' =>
      match skip_ws s with
      | EmptyString => None
      | String c rest as s' =>
          if Ascii.eqb c "{" then
            match skip_ws rest with
            | String c' rest' as inner =>
                if Ascii.eqb c' "}" then Some (VObject [], rest')
                else
                  match parse_members fuel' inner with
                  | Some (members, after) => Some (make_object members, after)
                  | None => None
                  end
            | EmptyString => None
            end
          else if Ascii.eqb c "[" then
            match skip_ws rest with
            | String c' rest' as inner =>
                if Ascii.eqb c' "]" then Some (VArray [], rest')
                else
                  match parse_elements fuel' inner with
                  | Some (elements, after) => Some (VArray elements, after)
                  | None => None
                  end
            | EmptyString => None
            end
          else if Ascii.eqb c DQUOTE then
            match parse_chars rest with
            | Some (str, after) => Some (VString str, after)
            | None => None
            end
          else
            match strip_prefix "true" s', strip_prefix "false" s', strip_prefix "null" s' with
            | Some after, _, _ => Some (VBool true, after)
            | _, Some after, _ => Some (VBool false, after)
            | _, _, Some after => Some (VNull, after)
            | None, None, None =>
                match parse_number s' with
                | Some (x, after) => Some (VNumber x, after)
                | None => None
                end
            end
      end
  end
with parse_elements (fuel : nat) (s : string) : option (list value * string) :=
  match fuel with
  | O => None
  | S fuel' =>
      match parse_value fuel' s with
      | None => None
      | Some (v, after) =>
          match skip_ws after with
          | String c rest =>
              if Ascii.eqb c "]" then Some ([v], rest)
              else if Ascii.eqb c "," then
                match parse_elements fuel' rest with
                | Some (vs, after') => Some (v :: vs, after')
                | None => None
                end
              else None
          | EmptyString => None
          end
      end
  end
with parse_members (fuel : nat) (s : string) : option (list (string * value) * string) :=
  match fuel with
  | O => None
  | S fuel' =>
      match skip_ws s with
      | String q rest =>
          if Ascii.eqb q DQUOTE then
            match parse_chars rest with
            | None => None
            | Some (k, after_key) =>
                match skip_ws after_key with
                | String colon after_colon =>
                    if Ascii.eqb colon ":" then
                      match parse_value fuel' after_colon with
                      | None => None
                      | Some (v, after) =>
                          match skip_ws after with
                          | String c rest' =>
                              if Ascii.eqb c "}" then Some ([(k, v)], rest')
                              else if Ascii.eqb c "," then
                                match parse_members fuel' rest' with
                                | Some (kvs, after') => Some ((k, v) :: kvs, after')
                                | None => None
                                end
                              else None
                          | EmptyString => None
                          end
                      end
                    else None
                | EmptyString => None
                end
            end
          else None
      | EmptyString => None
      end
  end.

(** [JSON.parse(text)]; [None] when it throws a [SyntaxError]. *)
Definition JSON_parse (text : string) : option value :=
  match parse_value (2 * String.length text + 2) text with
  | Some (v, rest) =>
      match skip_ws rest with
      | EmptyString => Some v
      | String _ _ => None
      end
  | None => None
  end.

(** *** url.parse

    [url.parse(u, true).pathname] for a request target in origin form
    ([/path?query]) free of white space and of the characters [url.parse]
    escapes or rewrites: what precedes the first [?] or [#]. *)
Fixpoint pathname (u : string) : string :=
  match u with
  | EmptyString => EmptyString
  | String c rest =>
      if Ascii.eqb c "?" || Ascii.eqb c "#" then EmptyString
      else String c (pathname rest)
  end.

Definition url_parse_pathname (u : string) : result (option string) :=
  Ok (Some (pathname u)).

(** *** https.request

    The checks made on [options] before the request is created: the path
    may hold only characters from U+0021 to U+00FF, and a header value
    must be defined and free of control characters other than the tab and
    of characters above U+00FF. *)
Fixpoint latin1_text (allowed : nat -> bool) (s : string) : bool :=
  match s with
  | EmptyString => true
  | String c rest =>
      let n := nat_of_ascii c in
      if (n <? 128)%nat then allowed n && latin1_text allowed rest
      else if (n =? 194)%nat || (n =? 195)%nat then
        match rest with
        | String _ rest' => latin1_text allowed rest'
        | EmptyString => false
        end
      else false
  end.

Definition valid_path (p : string) : bool :=
  latin1_text (fun n => (33 <=? n)%nat) p.

Definition valid_header_value (v : value) : bool :=
  match v with
  | VUndefined => false
  | VString s =>
      latin1_text (fun n => (n =? 9)%nat || ((32 <=? n)%nat && (n <=? 126)%nat)) s
  | _ => true
  end.

Definition https_request_check (o : Node.RequestOptions) : option exn :=
  if negb (valid_path (Node.path o))
  then Some (TypeError "Request path contains unescaped characters")
  else if forallb (fun h => valid_header_value (snd h)) (Node.headers o)
  then None
  else Some (TypeError "Invalid value for header").

End Reference.

(** ** The script *)

Module Relay.
Import JS Text Node.
Local Open Scope js_scope.

(** *** Start-up (lines 1-9 and 182-189)

    The top level of the script runs once when the process starts.  An
    identifier that is neither declared by the script, nor a parameter of
    the CommonJS module wrapper, nor a property of the global object is
    unresolvable, and evaluating it throws a [ReferenceError]. *)

Definition Env : Type := list (string * string).

Fixpoint getenv (env : Env) (name : string) : option string :=
  match env with
  | [] => None
  | (n, v) :: rest => if String.eqb n name then Some v else getenv rest name
  end.

Definition script_bindings : list string :=
  ["http"; "https"; "url"; "API_KEYS"; "server"; "proxyToAnthropic";
   "proxyToOpenAI"; "proxyToGoogle"; "PORT"].

Definition module_wrapper : list string :=
  ["exports"; "require"; "module"; "__filename"; "__dirname"].

Definition global_object : list string :=
  ["globalThis"; "global"; "process"; "Buffer"; "console"; "JSON"; "Math";
   "Object"; "Function"; "Array"; "String"; "Number"; "Boolean"; "Symbol";
   "BigInt"; "Date"; "RegExp"; "Promise"; "Proxy"; "Reflect"; "Map"; "Set";
   "WeakMap"; "WeakSet"; "WeakRef"; "Error"; "TypeError"; "RangeError";
   "SyntaxError"; "ReferenceError"; "EvalError"; "URIError"; "AggregateError";
   "ArrayBuffer"; "SharedArrayBuffer"; "DataView"; "Atomics"; "Intl";
   "Int8Array"; "Uint8Array"; "Uint8ClampedArray"; "Int16Array"; "Uint16Array";
   "Int32Array"; "Uint32Array"; "Float32Array"; "Float64Array";
   "BigInt64Array"; "BigUint64Array"; "Infinity"; "NaN"; "undefined"; "eval";
   "isFinite"; "isNaN"; "parseFloat"; "parseInt"; "decodeURI";
   "decodeURIComponent"; "encodeURI"; "encodeURIComponent"; "escape";
   "unescape"; "setTimeout"; "setInterval"; "setImmediate"; "clearTimeout";
   "clearInterval"; "clearImmediate"; "queueMicrotask"; "structuredClone";
   "atob"; "btoa"; "fetch"; "performance"; "crypto"; "navigator"; "URL";
   "URLSearchParams"; "TextEncoder"; "TextDecoder"; "AbortController";
   "AbortSignal"; "Event"; "EventTarget"; "Blob"; "FormData"; "Headers";
   "Request"; "Response"; "MessageChannel"; "MessagePort"; "MessageEvent";
   "BroadcastChannel"; "WebAssembly"; "DOMException"; "ReadableStream";
   "WritableStream"; "TransformStream"].

Definition in_scope (name : string) : bool :=
  existsb (String.eqb name) (script_bindings ++ module_wrapper ++ global_object)%list.

(** Evaluating an identifier reference. *)
Definition resolve (name : string) : result unit :=
  if in_scope name then Ok tt
  else Throw (ReferenceError (name ++ " is not defined")).

(** [os.getenv(name)]: the reference [os] is evaluated first. *)
Definition os_getenv (env : Env) (name : string) : result (option string) :=
  rbind (resolve "os") (fun _ => Ok (getenv env name)).

(** [API_KEYS]; a variable of the environment that is not set is
    [undefined], here [None]. *)
Record Keys : Type := {
  anthropic : option string;
  openai : option string;
  google : option string
}.

(** What start-up leaves behind when it completes. *)
Record Process : Type := {
  API_KEYS : Keys;
  listening : Z
}.

Definition PORT : Z := 3000.

Definition main (env : Env) : result Process :=
  rbind (resolve "require") (fun _ =>
  rbind (os_getenv env "ANTHROPIC_API_KEY") (fun a =>
  rbind (os_getenv env "OPENAI_API_KEY") (fun o =>
  rbind (os_getenv env "GOOGLE_API_KEY") (fun g =>
  Ok {| API_KEYS := {| anthropic := a; openai := o; google := g |};
        listening := PORT |})))).

(** *** Requests and upstream events *)

(** An inbound request as the listener sees it: method, request target and
    the chunks in which its body arrives. *)
Record IncomingMessage : Type := {
  req_method : string;
  req_url : string;
  req_chunks : list Buffer
}.

(** What happens to the outbound request: the response head
    ([https.request]'s callback), then ['data'] and ['end'] on the
    response; ['error'] on the request, when the connection cannot be
    established or breaks with an error; and the connection closing after
    the response head and before the end of the body, on which Node emits
    ['aborted'] and ['close'] on the response, never ['end'], and no
    ['error'] on the request. *)
Inductive UpstreamEvent : Type :=
| ResponseHead (statusCode : Z)
| Data (chunk : Buffer)
| EndOfResponse
| Error (message : string)
| Aborted.

(** The events that can precede the completion or the failure of the
    outbound request. *)
Definition in_flight (ev : UpstreamEvent) : bool :=
  match ev with
  | ResponseHead _ | Data _ => true
  | EndOfResponse | Error _ | Aborted => false
  end.

Definition cors_calls : list ResCall :=
  [SetHeader "Access-Control-Allow-Origin" "*";
   SetHeader "Access-Control-Allow-Methods" "POST, OPTIONS";
   SetHeader "Access-Control-Allow-Headers" "Content-Type"].

Definition cors_headers : Headers :=
  [("Access-Control-Allow-Origin", "*");
   ("Access-Control-Allow-Methods", "POST, OPTIONS");
   ("Access-Control-Allow-Headers", "Content-Type")].

Definition json_header : Headers := [("Content-Type", "application/json")].

Definition number_of_Z (z : Z) : float := PrimFloat.of_uint63 (Uint63.of_Z z).

Definition key_value (k : option string) : value :=
  match k with
  | Some s => VString s
  | None => VUndefined
  end.

Section Script.

(** The platform: [JSON.parse] ([None] for a [SyntaxError]),
    [url.parse(u, true).pathname] ([None] for [null]; [url.parse] itself
    can throw), Number::toString, and the checks [https.request] applies
    to its options before it creates the request ([Some e] when it throws
    [e]). *)
Variable JSON_parse : string -> option value.
Variable url_parse_pathname : string -> result (option string).
Variable Number_toString : float -> string.
Variable https_request_check : RequestOptions -> option exn.

(** The credentials, as start-up would have left them. *)
Variable keys : Keys.

Definition stringify (v : value) : option string := JSON_stringify Number_toString v.

(** [JSON.stringify({ error: message })] *)
Definition error_body (message : string) : option string :=
  stringify (VObject [("error", VString message)]).

(** [Buffer.byteLength(postData)] throws on [undefined]. *)
Definition byteLength (postData : option string) : M Z :=
  match postData with
  | Some s => ret (Buffer_byteLength s)
  | None => throw (TypeError "The string argument must be of type string")
  end.

(** [`${v}`] *)
Definition template (v : value) : M string := lift (ToString Number_toString v).

(** Lines 78-89, 118-129, 160-171: the callback given to [https.request]
    and the two listeners it registers on the upstream response. *)
Definition on_response (statusCode : Z) : M unit :=
  set_proxyRes (Some (statusCode, "")).

Definition on_data (chunk : Buffer) : M unit :=
  p <- gets proxyRes ;;
  match p with
  | Some (statusCode, responseBody) =>
      set_proxyRes (Some (statusCode, responseBody ++ Buffer_toString chunk))
  | None => ret tt
  end.

Definition on_end : M unit :=
  p <- gets proxyRes ;;
  match p with
  | Some (statusCode, responseBody) =>
      res_writeHead statusCode json_header ;;
      res_end (Some responseBody)
  | None => ret tt
  end.

(** Lines 91-94, 131-134, 173-176: the ['error'] listener. *)
Definition on_error (message : string) : M unit :=
  res_writeHead 500 json_header ;;
  res_end (error_body message).

(** Lines 78-97, 118-137, 160-179: create the request, register the
    listeners, write the payload and end the request. *)
Definition send (o : RequestOptions) (postData : option string) : M unit :=
  match https_request_check o with
  | Some e => throw e
  | None =>
      https_request o ;;
      proxyReq_write (data_of postData) ;;
      proxyReq_end
  end.

(** Lines 65-76: [options], given the byte length of [postData]. *)
Definition anthropic_options (len : Z) : RequestOptions :=
  {| hostname := "api.anthropic.com";
     port := 443;
     path := "/v1/messages";
     method := "POST";
     headers := [("Content-Type", VString "application/json");
                 ("x-api-key", key_value (anthropic keys));
                 ("anthropic-version", VString "2023-06-01");
                 ("Content-Length", VNumber (number_of_Z len))] |}.

(** Lines 106-116: [options], given the text of [${API_KEYS.openai}]. *)
Definition openai_options (bearer : string) (len : Z) : RequestOptions :=
  {| hostname := "api.openai.com";
     port := 443;
     path := "/v1/chat/completions";
     method := "POST";
     headers := [("Content-Type", VString "application/json");
                 ("Authorization", VString ("Bearer " ++ bearer));
                 ("Content-Length", VNumber (number_of_Z len))] |}.

(** Lines 149-158: [options], given the texts of [${data.model}] and
    [${API_KEYS.google}]. *)
Definition google_options (name key : string) (len : Z) : RequestOptions :=
  {| hostname := "generativelanguage.googleapis.com";
     port := 443;
     path := "/v1beta/models/" ++ name ++ ":generateContent?key=" ++ key;
     method := "POST";
     headers := [("Content-Type", VString "application/json");
                 ("Content-Length", VNumber (number_of_Z len))] |}.

(** Lines 58-98 *)
Definition proxyToAnthropic (data : value) : M unit :=
  enter Anthropic ;;
  m <- lift (Get data model) ;;
  mt <- lift (Get data max_tokens) ;;
  ms <- lift (Get data messages) ;;
  let postData :=
    stringify (VObject [("model", m);
                        ("max_tokens", JS.or mt (VNumber 4096));
                        ("messages", ms)]) in
  len <- byteLength postData ;;
  send (anthropic_options len) postData.

(** Lines 100-138 *)
Definition proxyToOpenAI (data : value) : M unit :=
  enter OpenAI ;;
  m <- lift (Get data model) ;;
  ms <- lift (Get data messages) ;;
  let postData := stringify (VObject [("model", m); ("messages", ms)]) in
  bearer <- template (key_value (openai keys)) ;;
  len <- byteLength postData ;;
  send (openai_options bearer len) postData.

(** Lines 140-180 *)
Definition proxyToGoogle (data : value) : M unit :=
  enter Google ;;
  text <- lift (Get data prompt) ;;
  let postData :=
    stringify (VObject [("contents",
      VArray [VObject [("parts", VArray [VObject [("text", text)]])]])]) in
  m <- lift (Get data model) ;;
  name <- template m ;;
  key <- template (key_value (google keys)) ;;
  len <- byteLength postData ;;
  send (google_options name key len) postData.

Definition is_path (pathname : option string) (p : string) : bool :=
  match pathname with
  | Some q => String.eqb q p
  | None => false
  end.

(** Lines 32-35: the body as the ['data'] listener accumulates it. *)
Definition buffered_body (req : IncomingMessage) : string :=
  fold_left (fun body chunk => body ++ Buffer_toString chunk) (req_chunks req) "".

(** Lines 37-55: the ['end'] listener. *)
Definition end_listener (pathname : option string) (body : string) : M unit :=
  try_catch
    (match JSON_parse body with
     | None => throw (SyntaxError "Unexpected token")
     | Some data =>
         if is_path pathname "/anthropic" then proxyToAnthropic data
         else if is_path pathname "/openai" then proxyToOpenAI data
         else if is_path pathname "/google" then proxyToGoogle data
         else
           res_writeHead 404 json_header ;;
           res_end (error_body "Not found")
     end)
    (fun _ =>
       res_writeHead 400 json_header ;;
       res_end (error_body "Invalid JSON")).

(** Lines 11-56: the request listener, run until the inbound body has
    ended. *)
Definition requestListener (req : IncomingMessage) : M unit :=
  res_setHeader "Access-Control-Allow-Origin" "*" ;;
  res_setHeader "Access-Control-Allow-Methods" "POST, OPTIONS" ;;
  res_setHeader "Access-Control-Allow-Headers" "Content-Type" ;;
  if String.eqb (req_method req) "OPTIONS" then
    res_writeHead 200 [] ;;
    res_end None
  else if negb (String.eqb (req_method req) "POST") then
    res_writeHead 405 json_header ;;
    res_end (error_body "Method not allowed")
  else
    pathname <- lift (url_parse_pathname (req_url req)) ;;
    end_listener pathname (buffered_body req).

(** An event of the outbound request reaches the listeners of the adapter
    that created it; with no outbound request there is no listener.  The
    adapters register none for ['aborted'], ['close'] or ['error'] on the
    response. *)
Definition deliver (ev : UpstreamEvent) : M unit :=
  pending <- gets outbound ;;
  match pending with
  | [] => ret tt
  | _ :: _ =>
      match ev with
      | ResponseHead statusCode => on_response statusCode
      | Data chunk => on_data chunk
      | EndOfResponse => on_end
      | Error message => on_error message
      | Aborted => ret tt
      end
  end.

Fixpoint deliver_all (evs : list UpstreamEvent) : M unit :=
  match evs with
  | [] => ret tt
  | ev :: rest => deliver ev ;; deliver_all rest
  end.

(** One inbound request from its arrival to the last upstream event.  A
    [Throw] is an exception no handler caught. *)
Definition serve (req : IncomingMessage) (evs : list UpstreamEvent)
  : result unit * State :=
  (requestListener req ;; deliver_all evs) initial.

(** *** States and texts the statements speak of *)

(** The state of a request once lines 13-15 have run. *)
Definition cors_state : State :=
  {| res := cors_calls; outbound := []; proxyRes := None; dispatched := [] |}.

(** The state in which an adapter leaves a request it has sent on. *)
Definition forwarded (p : Provider) (o : RequestOptions) (postData : string) : State :=
  {| res := cors_calls;
     outbound := [{| options := o; written := postData; ended := true |}];
     proxyRes := None;
     dispatched := [p] |}.

(** The state of a request answered by the relay itself. *)
Definition answered (statusCode : Z) (hs : Headers) (data : option string)
  (ps : list Provider) : State :=
  {| res := (cors_calls ++ [WriteHead statusCode hs; End data])%list;
     outbound := [];
     proxyRes := None;
     dispatched := ps |}.

(** The state of a forwarded request while upstream events arrive: [log]
    holds the calls made on [res] and [pr] the upstream status code and
    [responseBody]. *)
Definition relaying (p : Provider) (o : RequestOptions) (postData : string)
  (log : list ResCall) (pr : option (Z * string)) : State :=
  {| res := log;
     outbound := [{| options := o; written := postData; ended := true |}];
     proxyRes := pr;
     dispatched := [p] |}.

(** The logs of calls on [res] a request can show: the three [setHeader]
    calls alone, or followed by one [writeHead] and one [end]. *)
Definition settled (log : list ResCall) : Prop :=
  log = cors_calls \/
  exists statusCode hs data,
    log = (cors_calls ++ [WriteHead statusCode hs; End data])%list /\
    (hs = [] \/ hs = json_header).

(** The state in which an adapter that threw leaves a request. *)
Definition entered (p : Provider) : State :=
  {| res := cors_calls; outbound := []; proxyRes := None; dispatched := [p] |}.

(** [`${k}`] for a credential. *)
Definition key_text (k : option string) : string :=
  match k with
  | Some s => s
  | None => "undefined"
  end.

(** [data.f] where the read does not throw. *)
Definition field (data : value) (f : InboundField) : value :=
  match Get data f with
  | Ok v => v
  | Throw _ => VUndefined
  end.

(** The text [JSON.stringify] gives for an object with these properties,
    in this order. *)
Definition object_text (props : list (string * value)) : string :=
  data_of (stringify (VObject props)).

(** The member [JSON.stringify] prints for a property: none when its
    value is [undefined]. *)
Definition member (k : string) (v : value) : list string :=
  match stringify v with
  | Some text => [QuoteJSONString k ++ ":" ++ text]
  | None => []
  end.

(** The path on which the listener routes to a provider (lines 43-48). *)
Definition route (p : Provider) : string :=
  match p with
  | Anthropic => "/anthropic"
  | OpenAI => "/openai"
  | Google => "/google"
  end.

(** What the calls on [res] and the closure variables of a forwarded
    request owe to the upstream events [evs]: a status code held by the
    response callback came with a response; a 500 answer repeats the
    message of an ['error'] event; any other answer carries the status
    code of a response that ended. *)
Definition relayed_from (evs : list UpstreamEvent) (log : list ResCall)
  (pr : option (Z * string)) : Prop :=
  match pr with
  | Some (statusCode, _) => In (ResponseHead statusCode) evs
  | None => True
  end /\
  (log = cors_calls \/
   (exists message,
      In (Error message) evs /\
      log = (cors_calls ++ [WriteHead 500 json_header; End (error_body message)])%list) \/
   (exists statusCode responseBody,
      In (ResponseHead statusCode) evs /\
      In EndOfResponse evs /\
      (100 <= statusCode <= 999)%Z /\
      log = (cors_calls ++ [WriteHead statusCode json_header; End (Some responseBody)])%list)).

(** *** Sample requests *)

Definition POST (target body : string) : IncomingMessage :=
  {| req_method := "POST"; req_url := target; req_chunks := [bytes_of (qq body)] |}.

Definition sample_keys : Keys :=
  {| anthropic := Some "sk-ant-sample";
     openai := Some "sk-sample";
     google := Some "AIza-sample" |}.

(** ** Theorems *)

(** *** Start-up *)

(** C1 (the script fails it).  Whatever the environment holds, start-up
    does not complete: the first initialiser of [API_KEYS] evaluates the
    identifier [os], which nothing binds, and the [ReferenceError] ends
    the process before the server is created. *)
Theorem main_throws_ReferenceError :
  forall env : Env, main env = Throw (ReferenceError "os is not defined").
Proof. intros env. reflexivity. Qed.

(** *** The platform-independent texts *)

Lemma error_body_text (message : string) :
  error_body message = Some (qq "{'error':" ++ QuoteJSONString message ++ "}").
Proof. reflexivity. Qed.

(** The text of an object lists, between braces and separated by commas,
    the members of its properties in order. *)
Lemma object_text_members (props : list (string * value)) :
  object_text props =
    "{" ++ join "," (flat_map (fun kv => member (fst kv) (snd kv)) props) ++ "}".
Proof.
  unfold object_text, stringify, JSON_stringify. simpl. do 3 f_equal.
  induction props as [| [k v] props IH]; simpl.
  - reflexivity.
  - unfold member at 1, stringify, JSON_stringify. simpl.
    destruct (SerializeJSONProperty Number_toString v); simpl; rewrite IH; reflexivity.
Qed.

Lemma Get_field (data : value) (f : InboundField) :
  nullish data = false -> Get data f = Ok (field data f).
Proof.
  unfold field. destruct data; simpl; try discriminate; intros _; try reflexivity.
  destruct (lookup (field_name f) properties); reflexivity.
Qed.

Lemma Get_nullish (data : value) (f : InboundField) :
  nullish data = true -> exists e, Get data f = Throw e.
Proof.
  destruct data; simpl; try discriminate; intros _; eexists; reflexivity.
Qed.

(** *** The request listener, branch by branch *)

Lemma listener_OPTIONS (req : IncomingMessage) :
  req_method req = "OPTIONS" ->
  requestListener req initial = (Ok tt, answered 200 [] None []).
Proof. intros Hm. unfold requestListener. rewrite Hm. reflexivity. Qed.

Lemma listener_other_method (req : IncomingMessage) :
  req_method req <> "OPTIONS" -> req_method req <> "POST" ->
  requestListener req initial =
    (Ok tt, answered 405 json_header (Some (qq "{'error':'Method not allowed'}")) []).
Proof.
  intros Ho Hp. unfold requestListener.
  apply String.eqb_neq in Ho. apply String.eqb_neq in Hp.
  rewrite Ho, Hp. reflexivity.
Qed.

Lemma listener_url_throws (req : IncomingMessage) (e : exn) :
  req_method req = "POST" ->
  url_parse_pathname (req_url req) = Throw e ->
  requestListener req initial = (Throw e, cors_state).
Proof.
  intros Hm Hu. unfold requestListener. rewrite Hm.
  unfold bind, lift. simpl. rewrite Hu. reflexivity.
Qed.

Lemma listener_POST (req : IncomingMessage) (pathname : option string) :
  req_method req = "POST" ->
  url_parse_pathname (req_url req) = Ok pathname ->
  requestListener req initial = end_listener pathname (buffered_body req) cors_state.
Proof.
  intros Hm Hu. unfold requestListener. rewrite Hm.
  unfold bind, lift. simpl. rewrite Hu. reflexivity.
Qed.

Lemma end_listener_invalid (pathname : option string) (body : string) :
  JSON_parse body = None ->
  end_listener pathname body cors_state =
    (Ok tt, answered 400 json_header (Some (qq "{'error':'Invalid JSON'}")) []).
Proof. intros Hp. unfold end_listener, try_catch. rewrite Hp. reflexivity. Qed.

Lemma end_listener_unrouted (pathname : option string) (body : string) (data : value) :
  JSON_parse body = Some data ->
  is_path pathname "/anthropic" = false ->
  is_path pathname "/openai" = false ->
  is_path pathname "/google" = false ->
  end_listener pathname body cors_state =
    (Ok tt, answered 404 json_header (Some (qq "{'error':'Not found'}")) []).
Proof.
  intros Hp Ha Ho Hg. unfold end_listener, try_catch.
  rewrite Hp, Ha, Ho, Hg. reflexivity.
Qed.

(** *** The adapters, run on a fresh request *)

Lemma stringify_object (props : list (string * value)) :
  stringify (VObject props) = Some (object_text props).
Proof. reflexivity. Qed.

Lemma template_key (k : option string) (st : State) :
  template (key_value k) st = (Ok (key_text k), st).
Proof. destruct k; reflexivity. Qed.

Lemma send_accepted (o : RequestOptions) (postData : string) (p : Provider) :
  https_request_check o = None ->
  send o (Some postData) (entered p) = (Ok tt, forwarded p o postData).
Proof. intros Hc. unfold send. rewrite Hc. reflexivity. Qed.

Lemma send_rejected (o : RequestOptions) (postData : option string) (e : exn)
  (st : State) :
  https_request_check o = Some e ->
  send o postData st = (Throw e, st).
Proof. intros Hc. unfold send. rewrite Hc. reflexivity. Qed.

Lemma proxyToAnthropic_sends (data : value) :
  nullish data = false ->
  let mt := field data max_tokens in
  let postData :=
    object_text [("model", field data model);
                 ("max_tokens", if ToBoolean mt then mt else VNumber 4096);
                 ("messages", field data messages)] in
  proxyToAnthropic data cors_state =
    send (anthropic_options (Buffer_byteLength postData)) (Some postData)
      (entered Anthropic).
Proof.
  intros Hd mt postData. unfold proxyToAnthropic.
  rewrite !(Get_field data _ Hd). reflexivity.
Qed.

Lemma proxyToOpenAI_sends (data : value) :
  nullish data = false ->
  let postData :=
    object_text [("model", field data model); ("messages", field data messages)] in
  proxyToOpenAI data cors_state =
    send (openai_options (key_text (openai keys)) (Buffer_byteLength postData))
      (Some postData) (entered OpenAI).
Proof.
  intros Hd postData. unfold proxyToOpenAI.
  rewrite !(Get_field data _ Hd).
  unfold bind at 1 2 3 4. unfold lift, enter, modify.
  rewrite template_key. reflexivity.
Qed.

Lemma proxyToGoogle_sends (data : value) (name : string) :
  nullish data = false ->
  ToString Number_toString (field data model) = Ok name ->
  let postData :=
    object_text
      [("contents",
        VArray [VObject [("parts", VArray [VObject [("text", field data prompt)]])]])] in
  proxyToGoogle data cors_state =
    send (google_options name (key_text (google keys)) (Buffer_byteLength postData))
      (Some postData) (entered Google).
Proof.
  intros Hd Hn postData. unfold proxyToGoogle.
  rewrite !(Get_field data _ Hd).
  unfold bind at 1 2 3 4. unfold template at 1. unfold lift, enter, modify.
  rewrite Hn. unfold bind at 1. rewrite template_key. reflexivity.
Qed.

Lemma proxyToGoogle_unprintable (data : value) (e : exn) :
  nullish data = false ->
  ToString Number_toString (field data model) = Throw e ->
  proxyToGoogle data cors_state = (Throw e, entered Google).
Proof.
  intros Hd Hn. unfold proxyToGoogle.
  rewrite !(Get_field data _ Hd).
  unfold bind at 1 2 3 4. unfold template at 1. unfold lift, enter, modify.
  rewrite Hn. reflexivity.
Qed.

(** An adapter given [null] throws before it creates a request. *)
Lemma adapters_throw_on_nullish (data : value) :
  nullish data = true ->
  (exists e, proxyToAnthropic data cors_state = (Throw e, entered Anthropic)) /\
  (exists e, proxyToOpenAI data cors_state = (Throw e, entered OpenAI)) /\
  (exists e, proxyToGoogle data cors_state = (Throw e, entered Google)).
Proof.
  intros Hd. destruct data; try discriminate; repeat split; eexists; reflexivity.
Qed.

Lemma send_outcome (o : RequestOptions) (postData : string) (p : Provider) :
  send o (Some postData) (entered p) = (Ok tt, forwarded p o postData) \/
  exists e, send o (Some postData) (entered p) = (Throw e, entered p).
Proof.
  destruct (https_request_check o) as [e|] eqn:Hc.
  - right. exists e. apply send_rejected. exact Hc.
  - left. apply send_accepted. exact Hc.
Qed.

Ltac case_send H :=
  match goal with
  | |- context [send ?o (Some ?pd) (entered ?p)] =>
      destruct (send_outcome o pd p) as [H | H]
  end.

(** Whatever it is given, an adapter either sends one request on and
    leaves [res] alone, or throws having done neither. *)
Lemma adapter_outcome (data : value) :
  ((exists o pd, proxyToAnthropic data cors_state = (Ok tt, forwarded Anthropic o pd)) \/
   (exists e, proxyToAnthropic data cors_state = (Throw e, entered Anthropic))) /\
  ((exists o pd, proxyToOpenAI data cors_state = (Ok tt, forwarded OpenAI o pd)) \/
   (exists e, proxyToOpenAI data cors_state = (Throw e, entered OpenAI))) /\
  ((exists o pd, proxyToGoogle data cors_state = (Ok tt, forwarded Google o pd)) \/
   (exists e, proxyToGoogle data cors_state = (Throw e, entered Google))).
Proof.
  destruct (nullish data) eqn:Hd.
  - destruct (adapters_throw_on_nullish data Hd) as (Ha & Ho & Hg).
    repeat split; right; assumption.
  - repeat split.
    + rewrite (proxyToAnthropic_sends data Hd).
      case_send H.
      * left. eauto.
      * right. exact H.
    + rewrite (proxyToOpenAI_sends data Hd).
      case_send H.
      * left. eauto.
      * right. exact H.
    + destruct (ToString Number_toString (field data model)) as [name | e] eqn:Hn.
      * rewrite (proxyToGoogle_sends data name Hd Hn).
        case_send H.
        -- left. eauto.
        -- right. exact H.
      * right. exists e. apply proxyToGoogle_unprintable; assumption.
Qed.

(** *** The outcomes of the request listener *)

Lemma end_listener_outcome (pathname : option string) (body : string) :
  (exists p o pd,
     end_listener pathname body cors_state = (Ok tt, forwarded p o pd)) \/
  (exists statusCode data ps,
     end_listener pathname body cors_state =
       (Ok tt, answered statusCode json_header data ps) /\
     (length ps <= 1)%nat).
Proof.
  destruct (JSON_parse body) as [data|] eqn:Hp.
  2:{ right. rewrite (end_listener_invalid pathname body Hp).
      do 3 eexists. split; [reflexivity | simpl; lia]. }
  destruct (adapter_outcome data) as (Ha & Ho & Hg).
  unfold end_listener, try_catch. rewrite Hp.
  destruct (is_path pathname "/anthropic").
  { destruct Ha as [(o & pd & H) | (e & H)]; rewrite H.
    - left. eauto.
    - right. do 3 eexists. split; [reflexivity | simpl; lia]. }
  destruct (is_path pathname "/openai").
  { destruct Ho as [(o & pd & H) | (e & H)]; rewrite H.
    - left. eauto.
    - right. do 3 eexists. split; [reflexivity | simpl; lia]. }
  destruct (is_path pathname "/google").
  { destruct Hg as [(o & pd & H) | (e & H)]; rewrite H.
    - left. eauto.
    - right. do 3 eexists. split; [reflexivity | simpl; lia]. }
  right. do 3 eexists. split; [reflexivity | simpl; lia].
Qed.

Lemma listener_outcome (req : IncomingMessage) :
  (exists p o pd, requestListener req initial = (Ok tt, forwarded p o pd)) \/
  (exists statusCode hs data ps,
     requestListener req initial = (Ok tt, answered statusCode hs data ps) /\
     (hs = [] \/ hs = json_header) /\
     (length ps <= 1)%nat) \/
  (exists e, requestListener req initial = (Throw e, cors_state)).
Proof.
  destruct (String.eqb_spec (req_method req) "OPTIONS") as [Ho | Ho].
  { right. left. rewrite (listener_OPTIONS req Ho).
    do 4 eexists. repeat split; eauto. }
  destruct (String.eqb_spec (req_method req) "POST") as [Hp | Hp].
  2:{ right. left. rewrite (listener_other_method req Ho Hp).
      do 4 eexists. repeat split; eauto. }
  destruct (url_parse_pathname (req_url req)) as [pathname | e] eqn:Hu.
  2:{ right. right. exists e. apply listener_url_throws; assumption. }
  rewrite (listener_POST req pathname Hp Hu).
  destruct (end_listener_outcome pathname (buffered_body req))
    as [(p & o & pd & H) | (st & d & ps & H & Hps)]; rewrite H.
  - left. eauto.
  - right. left. do 4 eexists. repeat split; eauto.
Qed.

Lemma forwarded_POST (req : IncomingMessage) (p : Provider) (o : RequestOptions)
  (pd : string) :
  requestListener req initial = (Ok tt, forwarded p o pd) -> req_method req = "POST".
Proof.
  intros H.
  destruct (String.eqb_spec (req_method req) "OPTIONS") as [Ho | Ho].
  { rewrite (listener_OPTIONS req Ho) in H. injection H as H. discriminate. }
  destruct (String.eqb_spec (req_method req) "POST") as [Hp | Hp]; [exact Hp |].
  rewrite (listener_other_method req Ho Hp) in H. injection H as H. discriminate.
Qed.

(** *** Upstream events *)

Lemma deliver_all_app (a b : list UpstreamEvent) (st : State) :
  deliver_all (a ++ b) st =
    match deliver_all a st with
    | (Ok _, st') => deliver_all b st'
    | (Throw e, st') => (Throw e, st')
    end.
Proof.
  revert st. induction a as [| ev a IH]; intros st; simpl.
  - reflexivity.
  - unfold bind. destruct (deliver ev st) as [[[] | e] st']; [apply IH | reflexivity].
Qed.

(** A request the relay answered itself has no outbound request, hence no
    listener: upstream events change nothing. *)
Lemma deliver_all_answered (evs : list UpstreamEvent) (statusCode : Z)
  (hs : Headers) (data : option string) (ps : list Provider) :
  deliver_all evs (answered statusCode hs data ps) =
    (Ok tt, answered statusCode hs data ps).
Proof.
  induction evs as [| ev evs IH]; simpl.
  - reflexivity.
  - unfold bind. change (deliver ev (answered statusCode hs data ps))
      with (@Ok unit tt, answered statusCode hs data ps). exact IH.
Qed.

Lemma deliver_in_flight (ev : UpstreamEvent) (p : Provider) (o : RequestOptions)
  (pd : string) (log : list ResCall) (pr : option (Z * string)) :
  in_flight ev = true ->
  exists pr', deliver ev (relaying p o pd log pr) = (Ok tt, relaying p o pd log pr').
Proof.
  destruct ev; try discriminate; intros _.
  - eexists. reflexivity.
  - destruct pr as [[st rb] |]; eexists; reflexivity.
Qed.

Lemma deliver_all_in_flight (evs : list UpstreamEvent) (p : Provider)
  (o : RequestOptions) (pd : string) (log : list ResCall) (pr : option (Z * string)) :
  forallb in_flight evs = true ->
  exists pr',
    deliver_all evs (relaying p o pd log pr) = (Ok tt, relaying p o pd log pr').
Proof.
  revert pr. induction evs as [| ev evs IH]; intros pr H; simpl in *.
  - eexists. reflexivity.
  - apply andb_prop in H. destruct H as [Hev Hevs].
    destruct (deliver_in_flight ev p o pd log pr Hev) as [pr1 H1].
    destruct (IH pr1 Hevs) as [pr2 H2].
    exists pr2. unfold bind. rewrite H1. exact H2.
Qed.

(** The upstream body as the ['data'] listener accumulates it. *)
Lemma deliver_all_data (chunks : list Buffer) (p : Provider) (o : RequestOptions)
  (pd : string) (log : list ResCall) (statusCode : Z) (responseBody : string) :
  deliver_all (map Data chunks) (relaying p o pd log (Some (statusCode, responseBody))) =
    (Ok tt,
     relaying p o pd log
       (Some (statusCode,
              fold_left (fun b c => b ++ Buffer_toString c) chunks responseBody))).
Proof.
  revert responseBody. induction chunks as [| c chunks IH]; intros rb; simpl.
  - reflexivity.
  - unfold bind.
    change (deliver (Data c) (relaying p o pd log (Some (statusCode, rb))))
      with (@Ok unit tt,
            relaying p o pd log (Some (statusCode, rb ++ Buffer_toString c))).
    apply IH.
Qed.

Lemma deliver_settled (ev : UpstreamEvent) (p : Provider) (o : RequestOptions)
  (pd : string) (log : list ResCall) (pr : option (Z * string)) :
  settled log ->
  exists log' pr',
    snd (deliver ev (relaying p o pd log pr)) = relaying p o pd log' pr' /\
    settled log'.
Proof.
  intros Hlog.
  destruct ev as [st | c | | m |].
  - exists log. eexists. split; [reflexivity | exact Hlog].
  - exists log. destruct pr as [[st rb] |]; eexists; (split; [reflexivity | exact Hlog]).
  - destruct pr as [[st rb] |].
    2:{ exists log, None. split; [reflexivity | exact Hlog]. }
    destruct Hlog as [-> | (s & hs & d & -> & Hhs)].
    + destruct ((st <? 100)%Z || (999 <? st)%Z) eqn:Hrange.
      * exists cors_calls. eexists. split.
        -- unfold deliver, on_end, res_writeHead, bind, gets. simpl.
           rewrite Hrange. reflexivity.
        -- left. reflexivity.
      * exists (cors_calls ++ [WriteHead st json_header; End (Some rb)])%list.
        eexists. split.
        -- unfold deliver, on_end, res_writeHead, bind, gets. simpl.
           rewrite Hrange. reflexivity.
        -- right. exists st, json_header, (Some rb). auto.
    + exists (cors_calls ++ [WriteHead s hs; End d])%list. eexists. split.
      * reflexivity.
      * right. exists s, hs, d. auto.
  - destruct Hlog as [-> | (s & hs & d & -> & Hhs)].
    + exists (cors_calls ++ [WriteHead 500 json_header; End (error_body m)])%list.
      eexists. split; [reflexivity |].
      right. exists 500%Z, json_header, (error_body m). auto.
    + exists (cors_calls ++ [WriteHead s hs; End d])%list. eexists. split.
      * reflexivity.
      * right. exists s, hs, d. auto.
  - exists log, pr. split; [reflexivity | exact Hlog].
Qed.

Lemma deliver_all_settled (evs : list UpstreamEvent) (p : Provider)
  (o : RequestOptions) (pd : string) (log : list ResCall) (pr : option (Z * string)) :
  settled log ->
  exists log' pr',
    snd (deliver_all evs (relaying p o pd log pr)) = relaying p o pd log' pr' /\
    settled log'.
Proof.
  revert log pr. induction evs as [| ev evs IH]; intros log pr Hlog; simpl.
  - exists log, pr. split; [reflexivity | exact Hlog].
  - destruct (deliver_settled ev p o pd log pr Hlog) as (log1 & pr1 & H1 & Hs1).
    unfold bind. destruct (deliver ev (relaying p o pd log pr)) as [[[] | e] st1];
      simpl in H1; subst st1.
    + apply IH. exact Hs1.
    + exists log1, pr1. split; [reflexivity | exact Hs1].
Qed.

(** However a request goes, it ends in one of three shapes: forwarded,
    with the calls on [res] settled; answered by the relay itself; or cut
    short by an exception of [url.parse]. *)
Lemma serve_shape (req : IncomingMessage) (evs : list UpstreamEvent) :
  (exists p o pd log pr,
     snd (serve req evs) = relaying p o pd log pr /\ settled log) \/
  (exists statusCode hs data ps,
     serve req evs = (Ok tt, answered statusCode hs data ps) /\
     (hs = [] \/ hs = json_header) /\
     (length ps <= 1)%nat) \/
  (exists e, serve req evs = (Throw e, cors_state)).
Proof.
  unfold serve, bind.
  destruct (listener_outcome req)
    as [(p & o & pd & H) | [(s & hs & d & ps & H & Hhs & Hps) | (e & H)]]; rewrite H.
  - left.
    destruct (deliver_all_settled evs p o pd cors_calls None) as (log & pr & Hst & Hs).
    + left. reflexivity.
    + exists p, o, pd, log, pr. auto.
  - right. left. rewrite deliver_all_answered. exists s, hs, d, ps. auto.
  - right. right. exists e. reflexivity.
Qed.

Lemma serve_settled (req : IncomingMessage) (evs : list UpstreamEvent) :
  settled (res (snd (serve req evs))).
Proof.
  destruct (serve_shape req evs)
    as [(p & o & pd & log & pr & H & Hs) | [(s & hs & d & ps & H & Hhs & _) | (e & H)]];
    rewrite H.
  - exact Hs.
  - right. exists s, hs, d. auto.
  - left. reflexivity.
Qed.

(** *** What the caller receives *)

Lemma response_of_answer (method : string) (statusCode : Z) (data : option string) :
  response_of method (cors_calls ++ [WriteHead statusCode json_header; End data]) =
    Some {| status := statusCode;
            headers_set := (cors_headers ++ json_header)%list;
            body := body_sent method statusCode data |}.
Proof. reflexivity. Qed.

Lemma body_sent_POST (statusCode : Z) (data : option string) :
  body_sent "POST" statusCode data = if bodiless statusCode then "" else data_of data.
Proof.
  unfold body_sent, hasBody. simpl. destruct (bodiless statusCode); reflexivity.
Qed.

Lemma body_sent_HEAD (method : string) (statusCode : Z) (data : option string) :
  bodiless statusCode = false ->
  body_sent method statusCode data =
    if String.eqb method "HEAD" then "" else data_of data.
Proof.
  intros H. unfold body_sent, hasBody. rewrite H.
  destruct (String.eqb method "HEAD"); reflexivity.
Qed.

Lemma is_path_false (pathname : option string) (p : string) :
  pathname <> Some p -> is_path pathname p = false.
Proof.
  intros H. destruct pathname as [q |]; simpl; [| reflexivity].
  apply String.eqb_neq. intros ->. apply H. reflexivity.
Qed.

(** C8.  A POST request whose buffered body [JSON.parse] rejects is
    answered with status 400 and the body [{"error":"Invalid JSON"}],
    whatever its path; no adapter is entered and no outbound request is
    created, so that no upstream event can change the answer. *)
Theorem invalid_json_yields_400 :
  forall (req : IncomingMessage) (pathname : option string)
         (evs : list UpstreamEvent),
    req_method req = "POST" ->
    url_parse_pathname (req_url req) = Ok pathname ->
    JSON_parse (buffered_body req) = None ->
    exists st,
      serve req evs = (Ok tt, st) /\
      response_of (req_method req) (res st) =
        Some {| status := 400;
                headers_set := (cors_headers ++ json_header)%list;
                body := qq "{'error':'Invalid JSON'}" |} /\
      heads_written (res st) = 1%nat /\
      dispatched st = [] /\
      outbound st = [].
Proof.
  intros req pathname evs Hm Hu Hp.
  exists (answered 400 json_header (Some (qq "{'error':'Invalid JSON'}")) []).
  split.
  - unfold serve, bind.
    rewrite (listener_POST req pathname Hm Hu).
    rewrite (end_listener_invalid pathname _ Hp).
    apply deliver_all_answered.
  - rewrite Hm. repeat split; reflexivity.
Qed.

(** C9.  Routing looks at the request target only through the pathname
    [url.parse] extracts from it: two POST requests with the same pathname
    and the same body are served alike.  When the body is valid JSON and
    the pathname is none of [/anthropic], [/openai], [/google], the answer
    is status 404 with the body [{"error":"Not found"}], and no adapter is
    entered. *)
Theorem unknown_path_yields_404 :
  forall (req : IncomingMessage) (pathname : option string) (data : value)
         (evs : list UpstreamEvent),
    req_method req = "POST" ->
    url_parse_pathname (req_url req) = Ok pathname ->
    JSON_parse (buffered_body req) = Some data ->
    pathname <> Some "/anthropic" ->
    pathname <> Some "/openai" ->
    pathname <> Some "/google" ->
    (exists st,
       serve req evs = (Ok tt, st) /\
       response_of (req_method req) (res st) =
         Some {| status := 404;
                 headers_set := (cors_headers ++ json_header)%list;
                 body := qq "{'error':'Not found'}" |} /\
       heads_written (res st) = 1%nat /\
       dispatched st = [] /\
       outbound st = []) /\
    (forall req' : IncomingMessage,
       req_method req' = "POST" ->
       url_parse_pathname (req_url req') = Ok pathname ->
       buffered_body req' = buffered_body req ->
       serve req' evs = serve req evs).
Proof.
  intros req pathname data evs Hm Hu Hp Ha Ho Hg. split.
  - exists (answered 404 json_header (Some (qq "{'error':'Not found'}")) []).
    split.
    + unfold serve, bind.
      rewrite (listener_POST req pathname Hm Hu).
      rewrite (end_listener_unrouted pathname _ data Hp
                 (is_path_false _ _ Ha) (is_path_false _ _ Ho) (is_path_false _ _ Hg)).
      apply deliver_all_answered.
    + rewrite Hm. repeat split; reflexivity.
  - intros req' Hm' Hu' Hb. unfold serve, bind.
    rewrite (listener_POST req pathname Hm Hu), (listener_POST req' pathname Hm' Hu').
    rewrite Hb. reflexivity.
Qed.

(** C10.  The body is parsed before the path is looked at: a POST request
    to a path that is none of the three, with a body that is not valid
    JSON, gets the 400 answer of invalid JSON and not the 404 answer of
    an unknown path. *)
Theorem invalid_json_precedes_routing :
  forall (req : IncomingMessage) (pathname : option string)
         (evs : list UpstreamEvent),
    req_method req = "POST" ->
    url_parse_pathname (req_url req) = Ok pathname ->
    pathname <> Some "/anthropic" ->
    pathname <> Some "/openai" ->
    pathname <> Some "/google" ->
    JSON_parse (buffered_body req) = None ->
    exists r,
      response_of (req_method req) (res (snd (serve req evs))) = Some r /\
      status r = 400%Z /\
      body r = qq "{'error':'Invalid JSON'}" /\
      status r <> 404%Z /\
      body r <> qq "{'error':'Not found'}".
Proof.
  intros req pathname evs Hm Hu _ _ _ Hp.
  unfold serve, bind.
  rewrite (listener_POST req pathname Hm Hu).
  rewrite (end_listener_invalid pathname _ Hp).
  rewrite deliver_all_answered, Hm.
  eexists. split; [reflexivity |].
  repeat split; try reflexivity; simpl; discriminate.
Qed.

(** C7.  Every response the relay completes, whatever the request and
    whatever the upstream does, carries the three cross-origin headers. *)
Theorem every_response_carries_cors :
  forall (req : IncomingMessage) (evs : list UpstreamEvent) (r : Response),
    response_of (req_method req) (res (snd (serve req evs))) = Some r ->
    In ("Access-Control-Allow-Origin", "*") (headers_set r) /\
    In ("Access-Control-Allow-Methods", "POST, OPTIONS") (headers_set r) /\
    In ("Access-Control-Allow-Headers", "Content-Type") (headers_set r).
Proof.
  intros req evs r Hr.
  destruct (serve_settled req evs) as [Hlog | (s & hs & d & Hlog & [-> | ->])];
    rewrite Hlog in Hr.
  - discriminate.
  - injection Hr as <-. simpl. repeat split; auto.
  - injection Hr as <-. simpl. repeat split; auto.
Qed.

(** Once an adapter, whichever of the three, has sent its request on, an
    ['error'] event of the outbound request that arrives before the
    upstream response has ended is answered with status 500 and the body
    [{"error": message}].  That answer is the only one written for the
    request, and no further outbound request is created. *)
Theorem upstream_failure_yields_500 :
  forall (req : IncomingMessage) (p : Provider) (o : RequestOptions)
         (postData : string) (evs : list UpstreamEvent) (message : string),
    requestListener req initial = (Ok tt, forwarded p o postData) ->
    forallb in_flight evs = true ->
    exists st,
      serve req (evs ++ [Error message]) = (Ok tt, st) /\
      response_of (req_method req) (res st) =
        Some {| status := 500;
                headers_set := (cors_headers ++ json_header)%list;
                body := qq "{'error':" ++ QuoteJSONString message ++ "}" |} /\
      heads_written (res st) = 1%nat /\
      ends_written (res st) = 1%nat /\
      outbound st = [{| options := o; written := postData; ended := true |}].
Proof.
  intros req p o pd evs message Hl Hevs.
  destruct (deliver_all_in_flight evs p o pd cors_calls None Hevs) as [pr Hrun].
  exists (relaying p o pd
            (cors_calls ++ [WriteHead 500 json_header; End (error_body message)]) pr).
  split.
  - unfold serve, bind. rewrite Hl.
    rewrite deliver_all_app.
    change (forwarded p o pd) with (relaying p o pd cors_calls None).
    rewrite Hrun. reflexivity.
  - rewrite (forwarded_POST req p o pd Hl). repeat split; reflexivity.
Qed.

(** C6 (the script fails it).  The adapters listen for ['error'] on the
    outbound request and for ['data'] and ['end'] on the response, and
    for nothing else.  When the connection closes after the response
    head and before the body has ended, none of these is emitted: the
    caller is sent neither the 500 answer nor any other, not even a
    status line, and its request stays open; the chunks received are
    kept in [responseBody] and never used. *)
Theorem closed_connection_is_never_answered :
  forall (req : IncomingMessage) (p : Provider) (o : RequestOptions)
         (postData : string) (statusCode : Z) (chunks : list Buffer),
    requestListener req initial = (Ok tt, forwarded p o postData) ->
    exists st,
      serve req (ResponseHead statusCode :: map Data chunks ++ [Aborted])%list =
        (Ok tt, st) /\
      response_of (req_method req) (res st) = None /\
      heads_written (res st) = 0%nat /\
      ends_written (res st) = 0%nat /\
      outbound st = [{| options := o; written := postData; ended := true |}].
Proof.
  intros req p o pd statusCode chunks Hl.
  exists (relaying p o pd cors_calls
            (Some (statusCode,
                   fold_left (fun b c => b ++ Buffer_toString c) chunks ""))).
  split.
  - unfold serve, bind. rewrite Hl.
    change (deliver_all (ResponseHead statusCode :: map Data chunks ++ [Aborted])
              (forwarded p o pd))
      with (deliver_all (map Data chunks ++ [Aborted])
              (relaying p o pd cors_calls (Some (statusCode, "")))).
    rewrite deliver_all_app, deliver_all_data. reflexivity.
  - repeat split; reflexivity.
Qed.

(** *** Upstream completion *)

Lemma Buffer_toString_ascii (buf : Buffer) :
  forallb is_ascii buf = true -> Buffer_toString buf = string_of_list_byte buf.
Proof.
  unfold Buffer_toString. induction buf as [| b buf IH]; simpl; intros H.
  - reflexivity.
  - apply andb_prop in H. destruct H as [Hb Hbuf].
    unfold is_ascii in Hb. unfold classify. rewrite Hb.
    rewrite (IH Hbuf). reflexivity.
Qed.

Lemma string_of_list_byte_app (a b : list byte) :
  string_of_list_byte (a ++ b) = string_of_list_byte a ++ string_of_list_byte b.
Proof.
  unfold string_of_list_byte.
  induction a as [| x a IH]; simpl; [reflexivity | rewrite IH; reflexivity].
Qed.

Lemma string_app_assoc (a b c : string) : (a ++ b) ++ c = a ++ (b ++ c).
Proof. induction a as [| x a IH]; simpl; [reflexivity | rewrite IH; reflexivity]. Qed.

Lemma string_app_empty (a : string) : a ++ "" = a.
Proof. induction a as [| x a IH]; simpl; [reflexivity | rewrite IH; reflexivity]. Qed.

Lemma accumulate_ascii (chunks : list Buffer) (acc : string) :
  forallb (forallb is_ascii) chunks = true ->
  fold_left (fun b c => b ++ Buffer_toString c) chunks acc =
    acc ++ string_of_list_byte (concat chunks).
Proof.
  revert acc. induction chunks as [| c chunks IH]; simpl; intros acc H.
  - symmetry. apply string_app_empty.
  - apply andb_prop in H. destruct H as [Hc Hcs].
    rewrite (IH _ Hcs), (Buffer_toString_ascii c Hc).
    rewrite string_of_list_byte_app. apply string_app_assoc.
Qed.

(** When the upstream response completes, the caller gets the upstream
    status code, [Content-Type: application/json] after the cross-origin
    headers, and the chunks of the upstream body, each decoded on its own,
    one after the other; with a bodiless status code Node drops the
    body. *)
Lemma upstream_completion_relayed (req : IncomingMessage) (p : Provider)
  (o : RequestOptions) (postData : string) (statusCode : Z) (chunks : list Buffer) :
  requestListener req initial = (Ok tt, forwarded p o postData) ->
  (100 <=? statusCode)%Z && (statusCode <=? 999)%Z = true ->
  exists st,
    serve req (ResponseHead statusCode :: map Data chunks ++ [EndOfResponse])%list =
      (Ok tt, st) /\
    response_of (req_method req) (res st) =
      Some {| status := statusCode;
              headers_set := (cors_headers ++ json_header)%list;
              body := if bodiless statusCode then ""
                      else fold_left (fun b c => b ++ Buffer_toString c) chunks "" |} /\
    heads_written (res st) = 1%nat.
Proof.
  intros Hl Hrange.
  assert (Hr : (statusCode <? 100)%Z || (999 <? statusCode)%Z = false).
  { apply andb_prop in Hrange. destruct Hrange as [H1 H2].
    apply Z.leb_le in H1. apply Z.leb_le in H2.
    apply orb_false_intro; apply Z.ltb_ge; assumption. }
  set (responseBody := fold_left (fun b c => b ++ Buffer_toString c) chunks "").
  exists (relaying p o postData
            (cors_calls ++ [WriteHead statusCode json_header; End (Some responseBody)])
            (Some (statusCode, responseBody))).
  split.
  - unfold serve, bind. rewrite Hl.
    change (deliver_all (ResponseHead statusCode :: map Data chunks ++ [EndOfResponse])
              (forwarded p o postData))
      with (deliver_all (map Data chunks ++ [EndOfResponse])
              (relaying p o postData cors_calls (Some (statusCode, "")))).
    rewrite deliver_all_app, deliver_all_data.
    unfold deliver_all, deliver, on_end, res_writeHead, bind, gets. simpl.
    rewrite Hr. reflexivity.
  - rewrite (forwarded_POST req p o postData Hl). split; [| reflexivity].
    unfold relaying at 1. cbn [res]. rewrite response_of_answer, body_sent_POST. reflexivity.
Qed.

(** A body made of ASCII bytes reaches the caller byte for byte, unless
    the status code is one with which Node sends no body. *)
Theorem ascii_body_passes_through :
  forall (req : IncomingMessage) (p : Provider) (o : RequestOptions)
         (postData : string) (statusCode : Z) (chunks : list Buffer),
    requestListener req initial = (Ok tt, forwarded p o postData) ->
    (100 <=? statusCode)%Z && (statusCode <=? 999)%Z = true ->
    forallb (forallb is_ascii) chunks = true ->
    exists r,
      response_of (req_method req)
        (res (snd (serve req
                     (ResponseHead statusCode :: map Data chunks ++ [EndOfResponse])%list))) =
        Some r /\
      status r = statusCode /\
      In ("Content-Type", "application/json") (headers_set r) /\
      bytes_of (body r) = if bodiless statusCode then [] else concat chunks.
Proof.
  intros req p o pd statusCode chunks Hl Hrange Hascii.
  destruct (upstream_completion_relayed req p o pd statusCode chunks Hl Hrange)
    as (st & Hrun & Hresp & _).
  rewrite Hrun. eexists. split; [exact Hresp |].
  simpl. repeat split.
  - auto 6.
  - destruct (bodiless statusCode); [reflexivity |].
    rewrite (accumulate_ascii chunks "" Hascii). simpl.
    apply list_byte_of_string_of_list_byte.
Qed.

(** *** Decoding and chunk boundaries *)

Lemma decode_after_well_formed (n : nat) (buf tail : Buffer) :
  (length buf <= n)%nat ->
  well_formed buf = true ->
  decode "" 0 128 191 (buf ++ tail)%list =
    string_of_list_byte buf ++ decode "" 0 128 191 tail.
Proof.
  revert buf. induction n as [| n IH]; intros buf Hlen Hwf.
  - destruct buf; [reflexivity | simpl in Hlen; lia].
  - destruct buf as [| b rest]; [reflexivity |].
    simpl in Hlen. simpl in Hwf. simpl app. cbn [decode].
    destruct (classify (Byte.to_N b)) as [| k lo hi |] eqn:Hb; [| | discriminate].
    + rewrite (IH rest) by (assumption || lia). reflexivity.
    + destruct k as [| [| [| [| k]]]]; try discriminate.
      * destruct rest as [| c1 after]; [discriminate |].
        apply andb_prop in Hwf. destruct Hwf as [H1 Hwf].
        unfold in_range in H1. simpl app. cbn [decode]. rewrite H1.
        simpl in Hlen. rewrite (IH after) by (assumption || lia). reflexivity.
      * destruct rest as [| c1 [| c2 after]]; try discriminate.
        apply andb_prop in Hwf. destruct Hwf as [Hwf Hafter].
        apply andb_prop in Hwf. destruct Hwf as [H1 H2].
        unfold in_range in H1, H2. simpl app. cbn [decode]. rewrite H1.
        cbn [decode]. rewrite H2.
        simpl in Hlen. rewrite (IH after) by (assumption || lia). reflexivity.
      * destruct rest as [| c1 [| c2 [| c3 after]]]; try discriminate.
        apply andb_prop in Hwf. destruct Hwf as [Hwf Hafter].
        apply andb_prop in Hwf. destruct Hwf as [Hwf H3].
        apply andb_prop in Hwf. destruct Hwf as [H1 H2].
        unfold in_range in H1, H2, H3. simpl app. cbn [decode]. rewrite H1.
        cbn [decode]. rewrite H2. cbn [decode]. rewrite H3.
        simpl in Hlen. rewrite (IH after) by (assumption || lia). reflexivity.
Qed.

Lemma Buffer_toString_well_formed (buf : Buffer) :
  well_formed buf = true -> Buffer_toString buf = string_of_list_byte buf.
Proof.
  intros Hwf. unfold Buffer_toString.
  rewrite <- (app_nil_r buf) at 1.
  rewrite (decode_after_well_formed (length buf) buf [] (le_n _) Hwf).
  apply string_app_empty.
Qed.

Lemma accumulate_well_formed (chunks : list Buffer) (acc : string) :
  forallb well_formed chunks = true ->
  fold_left (fun b c => b ++ Buffer_toString c) chunks acc =
    acc ++ string_of_list_byte (concat chunks).
Proof.
  revert acc. induction chunks as [| c chunks IH]; simpl; intros acc H.
  - symmetry. apply string_app_empty.
  - apply andb_prop in H. destruct H as [Hc Hcs].
    rewrite (IH _ Hcs), (Buffer_toString_well_formed c Hc).
    rewrite string_of_list_byte_app. apply string_app_assoc.
Qed.

Lemma classify_two_byte_lead (n : N) :
  (194 <=? n)%N && (n <=? 223)%N = true -> classify n = Lead 1 128 191.
Proof.
  intros H. unfold classify. rewrite H.
  apply andb_prop in H. destruct H as [H _]. apply N.leb_le in H.
  destruct (N.leb_spec n 127); [lia | reflexivity].
Qed.

Lemma classify_continuation (n : N) :
  (128 <=? n)%N && (n <=? 191)%N = true -> classify n = Invalid.
Proof.
  intros H. apply andb_prop in H. destruct H as [H1 H2].
  apply N.leb_le in H1. apply N.leb_le in H2. unfold classify.
  repeat match goal with
         | |- context [(?a <=? ?b)%N] => destruct (N.leb_spec a b); try lia
         | |- context [(?a =? ?b)%N] => destruct (N.eqb_spec a b); try lia
         end; simpl; reflexivity.
Qed.

(** A chunk that ends on the lead byte of a two-byte character, and a chunk
    that starts on its continuation byte. *)
Lemma Buffer_toString_cut_after_lead (a : Buffer) (lead : byte) :
  well_formed a = true ->
  (194 <=? Byte.to_N lead)%N && (Byte.to_N lead <=? 223)%N = true ->
  Buffer_toString (a ++ [lead])%list = string_of_list_byte a ++ REPLACEMENT.
Proof.
  intros Ha Hl. unfold Buffer_toString.
  rewrite (decode_after_well_formed (length a) a [lead] (le_n _) Ha).
  cbn [decode]. rewrite (classify_two_byte_lead _ Hl). reflexivity.
Qed.

Lemma Buffer_toString_cut_before_continuation (b : Buffer) (cont : byte) :
  well_formed b = true ->
  in_range 128 191 cont = true ->
  Buffer_toString (cont :: b) = REPLACEMENT ++ string_of_list_byte b.
Proof.
  intros Hb Hc. unfold Buffer_toString. cbn [decode].
  rewrite (classify_continuation _ Hc).
  change (decode "" 0 128 191 b) with (Buffer_toString b).
  rewrite (Buffer_toString_well_formed b Hb). reflexivity.
Qed.

Lemma string_app_cancel (a x y : string) : a ++ x = a ++ y -> x = y.
Proof.
  induction a as [| c a IH]; simpl; intros H; [exact H |].
  injection H as H. exact (IH H).
Qed.

(** *** What a forwarded request went through *)

Lemma caught (e : exn) (p : Provider) :
  (res_writeHead 400 json_header ;; res_end (error_body "Invalid JSON")) (entered p) =
    (Ok tt, answered 400 json_header (Some (qq "{'error':'Invalid JSON'}")) [p]).
Proof. reflexivity. Qed.

Lemma is_path_true (pathname : option string) (p : string) :
  is_path pathname p = true -> pathname = Some p.
Proof.
  destruct pathname as [q |]; simpl; [| discriminate].
  intros H. apply String.eqb_eq in H. subst. reflexivity.
Qed.

Lemma answered_not_forwarded (statusCode : Z) (hs : Headers) (data : option string)
  (ps : list Provider) (p : Provider) (o : RequestOptions) (pd : string) :
  (@Ok unit tt, answered statusCode hs data ps) <> (Ok tt, forwarded p o pd).
Proof. intros H. injection H as H. discriminate. Qed.

(** The words of [send] after a successful run of the adapter's reads. *)
Lemma sent_inversion (o' : RequestOptions) (pd' : string) (q p : Provider)
  (o : RequestOptions) (pd : string) :
  (let (r, s') := send o' (Some pd') (entered q) in
   match r with
   | Ok a => (Ok a, s')
   | Throw _ =>
       (res_writeHead 400 json_header ;; res_end (error_body "Invalid JSON")) s'
   end) = (Ok tt, forwarded p o pd) ->
  q = p /\ o' = o /\ pd' = pd /\ https_request_check o = None.
Proof.
  destruct (https_request_check o') as [e |] eqn:Hc.
  - rewrite (send_rejected o' (Some pd') e _ Hc).
    intros H. exfalso. revert H. apply answered_not_forwarded.
  - rewrite (send_accepted o' pd' q Hc).
    intros H. injection H as Ho Hpd Hq. subst. auto.
Qed.

Lemma forwarded_inversion (req : IncomingMessage) (p : Provider)
  (o : RequestOptions) (pd : string) :
  requestListener req initial = (Ok tt, forwarded p o pd) ->
  req_method req = "POST" /\
  https_request_check o = None /\
  exists data,
    JSON_parse (buffered_body req) = Some data /\
    nullish data = false /\
    match p with
    | Anthropic =>
        url_parse_pathname (req_url req) = Ok (Some "/anthropic") /\
        pd = object_text
               [("model", field data model);
                ("max_tokens",
                 if ToBoolean (field data max_tokens)
                 then field data max_tokens else VNumber 4096);
                ("messages", field data messages)] /\
        o = anthropic_options (Buffer_byteLength pd)
    | OpenAI =>
        url_parse_pathname (req_url req) = Ok (Some "/openai") /\
        pd = object_text [("model", field data model);
                          ("messages", field data messages)] /\
        o = openai_options (key_text (openai keys)) (Buffer_byteLength pd)
    | Google =>
        url_parse_pathname (req_url req) = Ok (Some "/google") /\
        pd = object_text
               [("contents",
                 VArray [VObject [("parts",
                                   VArray [VObject [("text", field data prompt)]])]])] /\
        exists name,
          ToString Number_toString (field data model) = Ok name /\
          o = google_options name (key_text (google keys)) (Buffer_byteLength pd)
    end.
Proof.
  intros H.
  destruct (String.eqb_spec (req_method req) "OPTIONS") as [Ho | Ho].
  { rewrite (listener_OPTIONS req Ho) in H.
    exfalso. revert H. apply answered_not_forwarded. }
  destruct (String.eqb_spec (req_method req) "POST") as [Hm | Hm].
  2:{ rewrite (listener_other_method req Ho Hm) in H.
      exfalso. revert H. apply answered_not_forwarded. }
  destruct (url_parse_pathname (req_url req)) as [pathname | e] eqn:Hu.
  2:{ rewrite (listener_url_throws req e Hm Hu) in H. discriminate. }
  rewrite (listener_POST req pathname Hm Hu) in H.
  destruct (JSON_parse (buffered_body req)) as [data |] eqn:Hp.
  2:{ rewrite (end_listener_invalid pathname _ Hp) in H.
      exfalso. revert H. apply answered_not_forwarded. }
  unfold end_listener, try_catch in H. rewrite Hp in H.
  destruct (nullish data) eqn:Hd.
  { destruct (adapters_throw_on_nullish data Hd) as ((ea & Ha) & (eo & Hoa) & (eg & Hg)).
    exfalso.
    destruct (is_path pathname "/anthropic");
      [rewrite Ha, (caught ea) in H; revert H; apply answered_not_forwarded |].
    destruct (is_path pathname "/openai");
      [rewrite Hoa, (caught eo) in H; revert H; apply answered_not_forwarded |].
    destruct (is_path pathname "/google");
      [rewrite Hg, (caught eg) in H; revert H; apply answered_not_forwarded |].
    revert H. apply answered_not_forwarded. }
  split; [exact Hm |].
  destruct (is_path pathname "/anthropic") eqn:Epa.
  { apply is_path_true in Epa. subst pathname.
    rewrite (proxyToAnthropic_sends data Hd) in H.
    apply sent_inversion in H. destruct H as (<- & <- & <- & Hc).
    split; [exact Hc |]. exists data. auto. }
  destruct (is_path pathname "/openai") eqn:Epo.
  { apply is_path_true in Epo. subst pathname.
    rewrite (proxyToOpenAI_sends data Hd) in H.
    apply sent_inversion in H. destruct H as (<- & <- & <- & Hc).
    split; [exact Hc |]. exists data. auto. }
  destruct (is_path pathname "/google") eqn:Epg.
  { apply is_path_true in Epg. subst pathname.
    destruct (ToString Number_toString (field data model)) as [name | e] eqn:Hn.
    - rewrite (proxyToGoogle_sends data name Hd Hn) in H.
      apply sent_inversion in H. destruct H as (<- & <- & <- & Hc).
      split; [exact Hc |]. exists data. repeat split; auto. exists name. auto.
    - rewrite (proxyToGoogle_unprintable data e Hd Hn), (caught e) in H.
      exfalso. revert H. apply answered_not_forwarded. }
  exfalso. revert H. apply answered_not_forwarded.
Qed.

(** *** Further properties of the listener and the adapters *)

Lemma end_listener_cases (pathname : option string) (body : string) :
  (exists p o pd, end_listener pathname body cors_state = (Ok tt, forwarded p o pd)) \/
  (exists ps,
     end_listener pathname body cors_state =
       (Ok tt, answered 400 json_header (Some (qq "{'error':'Invalid JSON'}")) ps) /\
     (length ps <= 1)%nat) \/
  end_listener pathname body cors_state =
    (Ok tt, answered 404 json_header (Some (qq "{'error':'Not found'}")) []).
Proof.
  destruct (JSON_parse body) as [data|] eqn:Hp.
  2:{ right. left. rewrite (end_listener_invalid pathname body Hp).
      eexists. split; [reflexivity | simpl; lia]. }
  destruct (adapter_outcome data) as (Ha & Ho & Hg).
  unfold end_listener, try_catch. rewrite Hp.
  destruct (is_path pathname "/anthropic").
  { destruct Ha as [(o & pd & H) | (e & H)]; rewrite H.
    - left. eauto.
    - right. left. eexists. split; [reflexivity | simpl; lia]. }
  destruct (is_path pathname "/openai").
  { destruct Ho as [(o & pd & H) | (e & H)]; rewrite H.
    - left. eauto.
    - right. left. eexists. split; [reflexivity | simpl; lia]. }
  destruct (is_path pathname "/google").
  { destruct Hg as [(o & pd & H) | (e & H)]; rewrite H.
    - left. eauto.
    - right. left. eexists. split; [reflexivity | simpl; lia]. }
  right. right. reflexivity.
Qed.

Lemma listener_cases (req : IncomingMessage) :
  (exists p o pd, requestListener req initial = (Ok tt, forwarded p o pd)) \/
  (req_method req = "OPTIONS" /\
   requestListener req initial = (Ok tt, answered 200 [] None [])) \/
  (req_method req <> "OPTIONS" /\ req_method req <> "POST" /\
   requestListener req initial =
     (Ok tt, answered 405 json_header (Some (qq "{'error':'Method not allowed'}")) [])) \/
  (req_method req = "POST" /\
   exists ps,
     requestListener req initial =
       (Ok tt, answered 400 json_header (Some (qq "{'error':'Invalid JSON'}")) ps) /\
     (length ps <= 1)%nat) \/
  (req_method req = "POST" /\
   requestListener req initial =
     (Ok tt, answered 404 json_header (Some (qq "{'error':'Not found'}")) [])) \/
  (req_method req = "POST" /\
   exists e,
     url_parse_pathname (req_url req) = Throw e /\
     requestListener req initial = (Throw e, cors_state)).
Proof.
  destruct (String.eqb_spec (req_method req) "OPTIONS") as [Ho | Ho].
  { right. left. split; [exact Ho | apply listener_OPTIONS; exact Ho]. }
  destruct (String.eqb_spec (req_method req) "POST") as [Hm | Hm].
  2:{ do 2 right. left. repeat split; try assumption.
      apply listener_other_method; assumption. }
  destruct (url_parse_pathname (req_url req)) as [pathname | e] eqn:Hu.
  2:{ do 5 right. split; [exact Hm |]. exists e. split; [reflexivity |].
      apply listener_url_throws; assumption. }
  rewrite (listener_POST req pathname Hm Hu).
  destruct (end_listener_cases pathname (buffered_body req))
    as [(p & o & pd & H) | [(ps & H & Hps) | H]]; rewrite H.
  - left. eauto.
  - do 3 right. left. split; [exact Hm |]. exists ps. auto.
  - do 4 right. left. auto.
Qed.

(** Every request an adapter sends on is a POST to port 443 of the
    provider's host, announces JSON, and carries a [Content-Length] equal
    to the byte length of the payload that is then written to it. *)
Theorem outbound_frame :
  forall (req : IncomingMessage) (p : Provider) (o : RequestOptions)
         (postData : string),
    requestListener req initial = (Ok tt, forwarded p o postData) ->
    method o = "POST" /\
    port o = 443%Z /\
    hostname o =
      match p with
      | Anthropic => "api.anthropic.com"
      | OpenAI => "api.openai.com"
      | Google => "generativelanguage.googleapis.com"
      end /\
    lookup "Content-Type" (headers o) = Some (VString "application/json") /\
    lookup "Content-Length" (headers o) =
      Some (VNumber (number_of_Z (Buffer_byteLength postData))).
Proof.
  intros req p o pd H.
  destruct (forwarded_inversion req p o pd H) as (_ & _ & data & _ & _ & Hp).
  destruct p.
  - destruct Hp as (_ & _ & ->). repeat split; reflexivity.
  - destruct Hp as (_ & _ & ->). repeat split; reflexivity.
  - destruct Hp as (_ & _ & name & _ & ->). repeat split; reflexivity.
Qed.

(** Each provider is reached from its own path only, and receives its
    credential where its adapter puts it and nowhere else: Anthropic in
    the [x-api-key] header, OpenAI in [Authorization: Bearer], Google in
    the query string of the path, with no credential header. *)
Theorem outbound_target_and_credential :
  forall (req : IncomingMessage) (p : Provider) (o : RequestOptions)
         (postData : string),
    requestListener req initial = (Ok tt, forwarded p o postData) ->
    match p with
    | Anthropic =>
        url_parse_pathname (req_url req) = Ok (Some "/anthropic") /\
        path o = "/v1/messages" /\
        lookup "x-api-key" (headers o) = Some (key_value (anthropic keys)) /\
        lookup "anthropic-version" (headers o) = Some (VString "2023-06-01") /\
        lookup "Authorization" (headers o) = None
    | OpenAI =>
        url_parse_pathname (req_url req) = Ok (Some "/openai") /\
        path o = "/v1/chat/completions" /\
        lookup "Authorization" (headers o) =
          Some (VString ("Bearer " ++ key_text (openai keys))) /\
        lookup "x-api-key" (headers o) = None
    | Google =>
        url_parse_pathname (req_url req) = Ok (Some "/google") /\
        (exists name,
           path o =
             "/v1beta/models/" ++ name ++ ":generateContent?key="
               ++ key_text (google keys)) /\
        lookup "Authorization" (headers o) = None /\
        lookup "x-api-key" (headers o) = None
    end.
Proof.
  intros req p o pd H.
  destruct (forwarded_inversion req p o pd H) as (_ & _ & data & _ & _ & Hp).
  destruct p.
  - destruct Hp as (Hu & _ & ->). repeat split; try reflexivity. exact Hu.
  - destruct Hp as (Hu & _ & ->). repeat split; try reflexivity. exact Hu.
  - destruct Hp as (Hu & _ & name & _ & ->). repeat split; try reflexivity.
    + exact Hu.
    + exists name. reflexivity.
Qed.

(** The listener either answers a request itself, creating no outbound
    request, or sends it on without writing anything to the caller, never
    both; and the only exception that escapes it is one of [url.parse],
    thrown before anything but the three headers has been set. *)
Theorem listener_answers_or_forwards :
  forall req : IncomingMessage,
    (exists st r,
       requestListener req initial = (Ok tt, st) /\
       response_of (req_method req) (res st) = Some r /\
       outbound st = []) \/
    (exists p o pd,
       requestListener req initial = (Ok tt, forwarded p o pd) /\
       response_of (req_method req) (res (forwarded p o pd)) = None) \/
    (exists e,
       requestListener req initial = (Throw e, cors_state) /\
       url_parse_pathname (req_url req) = Throw e /\
       req_method req = "POST").
Proof.
  intros req.
  destruct (listener_cases req)
    as [(p & o & pd & H) | [(_ & H) | [(_ & _ & H) | [(_ & ps & H & _) |
        [(_ & H) | (Hm & e & Hu & H)]]]]].
  - right. left. exists p, o, pd. split; [exact H | reflexivity].
  - left. do 2 eexists. split; [exact H |]. split; reflexivity.
  - left. do 2 eexists. split; [exact H |]. split; reflexivity.
  - left. do 2 eexists. split; [exact H |]. split; reflexivity.
  - left. do 2 eexists. split; [exact H |]. split; reflexivity.
  - right. right. exists e. auto.
Qed.

Lemma stringify_truthy (v : value) :
  ToBoolean v = true -> exists text, stringify v = Some text.
Proof.
  destruct v as [| | [] | | | |]; simpl; try discriminate; intros _;
    eexists; reflexivity.
Qed.

(** The Anthropic payload always has a [max_tokens] member: its text is
    the JSON text of the inbound [max_tokens] when that is truthy and of
    4096 otherwise, so that 0, [null], [false], the empty string and a
    missing [max_tokens] all give 4096.  A truthy value need not print as
    itself: a number that overflowed to [Infinity] is kept, and
    [JSON.stringify] prints it [null]. *)
Theorem anthropic_max_tokens_always_sent :
  forall (req : IncomingMessage) (o : RequestOptions) (postData : string),
    requestListener req initial = (Ok tt, forwarded Anthropic o postData) ->
    exists (data : value) (text : string),
      JSON_parse (buffered_body req) = Some data /\
      stringify (if ToBoolean (field data max_tokens)
                 then field data max_tokens else VNumber 4096) = Some text /\
      postData =
        "{" ++ join ","
                 (member "model" (field data model)
                    ++ [(QuoteJSONString "max_tokens" ++ ":" ++ text)%string]
                    ++ member "messages" (field data messages))%list
            ++ "}" /\
      (ToBoolean (field data max_tokens) = false -> text = Number_toString 4096) /\
      (forall x : float,
         field data max_tokens = VNumber x ->
         ToBoolean (VNumber x) = true ->
         is_finite x = false ->
         text = "null").
Proof.
  intros req o pd H.
  destruct (forwarded_inversion req Anthropic o pd H)
    as (_ & _ & data & Hp & _ & _ & -> & _).
  set (v := if ToBoolean (field data max_tokens)
            then field data max_tokens else VNumber 4096).
  assert (Hv : ToBoolean v = true).
  { unfold v. destruct (ToBoolean (field data max_tokens)) eqn:E;
      [exact E | reflexivity]. }
  destruct (stringify_truthy v Hv) as [text Ht].
  exists data, text. split; [exact Hp |]. split; [exact Ht |]. split.
  - rewrite object_text_members. simpl flat_map.
    unfold member at 2. fold v. rewrite Ht. rewrite app_nil_r. reflexivity.
  - split.
    + intros Hf. unfold v in Ht. rewrite Hf in Ht.
      injection Ht as <-. reflexivity.
    + intros x Hx Htrue Hinf. unfold v in Ht. rewrite Hx, Htrue in Ht.
      unfold stringify, JSON_stringify in Ht. cbn [SerializeJSONProperty] in Ht.
      rewrite Hinf in Ht. injection Ht as <-. reflexivity.
Qed.


(** *** Bodies in several chunks *)

(** An upstream body whose chunks are each well-formed UTF-8 reaches the
    caller byte for byte, under the upstream status code and with
    [Content-Type: application/json] among the headers, unless the status
    code is one with which Node sends no body. *)
Theorem utf8_body_passes_through :
  forall (req : IncomingMessage) (p : Provider) (o : RequestOptions)
         (postData : string) (statusCode : Z) (chunks : list Buffer),
    requestListener req initial = (Ok tt, forwarded p o postData) ->
    (100 <=? statusCode)%Z && (statusCode <=? 999)%Z = true ->
    forallb well_formed chunks = true ->
    exists r,
      response_of (req_method req)
        (res (snd (serve req
                     (ResponseHead statusCode :: map Data chunks ++ [EndOfResponse])%list))) =
        Some r /\
      status r = statusCode /\
      In ("Content-Type", "application/json") (headers_set r) /\
      bytes_of (body r) = if bodiless statusCode then [] else concat chunks.
Proof.
  intros req p o pd statusCode chunks Hl Hrange Hwf.
  destruct (upstream_completion_relayed req p o pd statusCode chunks Hl Hrange)
    as (st & Hrun & Hresp & _).
  rewrite Hrun. eexists. split; [exact Hresp |].
  simpl. repeat split.
  - auto 6.
  - destruct (bodiless statusCode); [reflexivity |].
    rewrite (accumulate_well_formed chunks "" Hwf). simpl.
    apply list_byte_of_string_of_list_byte.
Qed.

(** How an inbound body is cut into chunks makes no difference, as long
    as no chunk boundary falls inside a character: two requests with the
    same method and target whose chunks are well-formed UTF-8 and add up
    to the same bytes are served alike. *)
Theorem inbound_chunking_irrelevant :
  forall (req req' : IncomingMessage) (evs : list UpstreamEvent),
    req_method req' = req_method req ->
    req_url req' = req_url req ->
    forallb well_formed (req_chunks req) = true ->
    forallb well_formed (req_chunks req') = true ->
    concat (req_chunks req') = concat (req_chunks req) ->
    serve req' evs = serve req evs.
Proof.
  intros req req' evs Hm Hu Hwf Hwf' Hc.
  assert (Hb : buffered_body req' = buffered_body req).
  { unfold buffered_body.
    rewrite (accumulate_well_formed _ "" Hwf), (accumulate_well_formed _ "" Hwf'), Hc.
    reflexivity. }
  unfold serve, requestListener. rewrite Hm, Hu, Hb. reflexivity.
Qed.

(** A chunk boundary between the two bytes of a two-byte character costs
    the character: the listener of ['data'] decodes each chunk on its own,
    so the lead byte and the continuation byte each become U+FFFD, and the
    buffered body differs from the one the unsplit bytes give. *)
Theorem split_two_byte_character :
  forall (m u : string) (a b : Buffer) (first second : byte),
    well_formed a = true ->
    well_formed b = true ->
    in_range 194 223 first = true ->
    in_range 128 191 second = true ->
    let split :=
      buffered_body {| req_method := m; req_url := u;
                       req_chunks := [(a ++ [first])%list; second :: b] |} in
    let whole :=
      buffered_body {| req_method := m; req_url := u;
                       req_chunks := [(a ++ first :: second :: b)%list] |} in
    split = string_of_list_byte a ++ REPLACEMENT ++ REPLACEMENT ++ string_of_list_byte b /\
    whole = string_of_list_byte (a ++ first :: second :: b) /\
    split <> whole.
Proof.
  intros m u a b first second Ha Hb Hf Hs split whole.
  assert (Es : split =
               string_of_list_byte a ++ REPLACEMENT ++ REPLACEMENT ++ string_of_list_byte b).
  { unfold split, buffered_body. simpl fold_left.
    rewrite (Buffer_toString_cut_after_lead a first Ha Hf).
    rewrite (Buffer_toString_cut_before_continuation b second Hb Hs).
    rewrite !string_app_assoc. reflexivity. }
  assert (Ew : whole = string_of_list_byte (a ++ first :: second :: b)).
  { unfold whole, buffered_body. simpl fold_left. unfold Buffer_toString.
    rewrite (decode_after_well_formed (length a) a _ (le_n _) Ha).
    cbn [decode]. rewrite (classify_two_byte_lead _ Hf).
    cbn [decode]. unfold in_range in Hs. rewrite Hs.
    change (decode "" 0 128 191 b) with (Buffer_toString b).
    rewrite (Buffer_toString_well_formed b Hb).
    rewrite string_of_list_byte_app. reflexivity. }
  repeat split; try assumption.
  rewrite Es, Ew, string_of_list_byte_app. intros H.
  apply string_app_cancel in H. injection H as H _.
  apply (f_equal byte_of_ascii) in H. rewrite byte_of_ascii_of_byte in H.
  subst first. discriminate Hf.
Qed.

(** *** Where an answer comes from *)

Lemma deliver_relayed (all : list UpstreamEvent) (ev : UpstreamEvent)
  (p : Provider) (o : RequestOptions) (pd : string) (log : list ResCall)
  (pr : option (Z * string)) :
  In ev all ->
  relayed_from all log pr ->
  exists log' pr',
    snd (deliver ev (relaying p o pd log pr)) = relaying p o pd log' pr' /\
    relayed_from all log' pr'.
Proof.
  intros Hin (Hpr & Hlog).
  destruct ev as [st | c | | m |].
  - exists log, (Some (st, "")). split; [reflexivity |]. split; assumption.
  - destruct pr as [[st rb] |].
    + exists log, (Some (st, rb ++ Buffer_toString c)).
      split; [reflexivity |]. split; assumption.
    + exists log, None. split; [reflexivity |]. split; assumption.
  - destruct pr as [[st rb] |].
    2:{ exists log, None. split; [reflexivity |]. split; assumption. }
    destruct Hlog as [-> | [(m & Hm & ->) | (s & b & Hs & He & Hr & ->)]].
    + destruct ((st <? 100)%Z || (999 <? st)%Z) eqn:Hrange.
      * exists cors_calls, (Some (st, rb)). split.
        -- unfold deliver, on_end, res_writeHead, bind, gets. simpl.
           rewrite Hrange. reflexivity.
        -- split; [exact Hpr | left; reflexivity].
      * exists (cors_calls ++ [WriteHead st json_header; End (Some rb)])%list,
               (Some (st, rb)). split.
        -- unfold deliver, on_end, res_writeHead, bind, gets. simpl.
           rewrite Hrange. reflexivity.
        -- split; [exact Hpr |]. right. right. exists st, rb.
           apply orb_false_elim in Hrange. destruct Hrange as [H1 H2].
           apply Z.ltb_ge in H1. apply Z.ltb_ge in H2.
           repeat split; auto.
    + eexists. exists (Some (st, rb)). split; [reflexivity |].
      split; [exact Hpr |]. right. left. eauto.
    + eexists. exists (Some (st, rb)). split; [reflexivity |].
      split; [exact Hpr |]. right. right. exists s, b. auto.
  - destruct Hlog as [-> | [(m' & Hm & ->) | (s & b & Hs & He & Hr & ->)]].
    + eexists. exists pr. split; [reflexivity |].
      split; [exact Hpr |]. right. left. eauto.
    + eexists. exists pr. split; [reflexivity |].
      split; [exact Hpr |]. right. left. eauto.
    + eexists. exists pr. split; [reflexivity |].
      split; [exact Hpr |]. right. right. exists s, b. auto.
  - exists log, pr. split; [reflexivity |]. split; assumption.
Qed.

Lemma deliver_all_relayed (all evs : list UpstreamEvent) (p : Provider)
  (o : RequestOptions) (pd : string) (log : list ResCall) (pr : option (Z * string)) :
  incl evs all ->
  relayed_from all log pr ->
  exists log' pr',
    snd (deliver_all evs (relaying p o pd log pr)) = relaying p o pd log' pr' /\
    relayed_from all log' pr'.
Proof.
  revert log pr. induction evs as [| ev evs IH]; intros log pr Hincl Hrel; simpl.
  - exists log, pr. split; [reflexivity | exact Hrel].
  - destruct (deliver_relayed all ev p o pd log pr (Hincl ev (or_introl eq_refl)) Hrel)
      as (log1 & pr1 & H1 & Hrel1).
    unfold bind. destruct (deliver ev (relaying p o pd log pr)) as [[[] | e] st1];
      simpl in H1; subst st1.
    + apply IH; [| exact Hrel1]. intros x Hx. apply Hincl. right. exact Hx.
    + exists log1, pr1. split; [reflexivity | exact Hrel1].
Qed.

(** The relay has six kinds of answer and no other: the empty 200 of a
    preflight; 405 for a method other than POST, with its JSON body unless
    the method is HEAD, when Node sends none; 400 and 404 for a POST it
    does not send on; 500 with the message of an ['error'] event of the
    outbound request; and the status code of an upstream response that
    ended.  The last two need the matching upstream events. *)
Theorem response_taxonomy :
  forall (req : IncomingMessage) (evs : list UpstreamEvent) (r : Response),
    response_of (req_method req) (res (snd (serve req evs))) = Some r ->
    (req_method req = "OPTIONS" /\
     r = {| status := 200; headers_set := cors_headers; body := "" |}) \/
    (req_method req <> "OPTIONS" /\ req_method req <> "POST" /\
     r = {| status := 405; headers_set := (cors_headers ++ json_header)%list;
            body := if String.eqb (req_method req) "HEAD" then ""
                    else qq "{'error':'Method not allowed'}" |}) \/
    (req_method req = "POST" /\
     r = {| status := 400; headers_set := (cors_headers ++ json_header)%list;
            body := qq "{'error':'Invalid JSON'}" |}) \/
    (req_method req = "POST" /\
     r = {| status := 404; headers_set := (cors_headers ++ json_header)%list;
            body := qq "{'error':'Not found'}" |}) \/
    (req_method req = "POST" /\
     exists message,
       In (Error message) evs /\
       r = {| status := 500; headers_set := (cors_headers ++ json_header)%list;
              body := data_of (error_body message) |}) \/
    (req_method req = "POST" /\
     exists statusCode responseBody,
       In (ResponseHead statusCode) evs /\
       In EndOfResponse evs /\
       (100 <= statusCode <= 999)%Z /\
       r = {| status := statusCode;
              headers_set := (cors_headers ++ json_header)%list;
              body := responseBody |}).
Proof.
  intros req evs r. unfold serve, bind.
  destruct (listener_cases req)
    as [(p & o & pd & H) | [(Hm & H) | [(Ho & Hm & H) | [(Hm & ps & H & _) |
        [(Hm & H) | (Hm & e & _ & H)]]]]]; rewrite H.
  - pose proof (forwarded_POST req p o pd H) as Hm.
    destruct (deliver_all_relayed evs evs p o pd cors_calls None (incl_refl _))
      as (log & pr & Hst & _ & Hlog).
    { split; [exact I | left; reflexivity]. }
    change (forwarded p o pd) with (relaying p o pd cors_calls None).
    rewrite Hst. simpl res.
    destruct Hlog as [-> | [(m & Hin & ->) | (s & b & Hs & He & Hr & ->)]].
    + discriminate.
    + rewrite response_of_answer, Hm. intros [= <-].
      do 4 right. left. split; [reflexivity |]. exists m. auto.
    + rewrite response_of_answer, Hm. intros [= <-].
      do 5 right. split; [reflexivity |]. exists s, (body_sent "POST" s (Some b)). auto.
  - rewrite deliver_all_answered, Hm. intros [= <-]. left. auto.
  - rewrite deliver_all_answered. unfold answered. cbn [snd res].
    rewrite response_of_answer, (body_sent_HEAD _ 405 _ eq_refl). intros [= <-].
    right. left. auto.
  - rewrite deliver_all_answered, Hm. intros [= <-]. do 2 right. left. auto.
  - rewrite deliver_all_answered, Hm. intros [= <-]. do 3 right. left. auto.
  - discriminate.
Qed.



(** *** Exceptions inside an adapter *)

Lemma routed_nullish (req : IncomingMessage) (p : Provider) (data : value) :
  req_method req = "POST" ->
  url_parse_pathname (req_url req) = Ok (Some (route p)) ->
  JSON_parse (buffered_body req) = Some data ->
  nullish data = true ->
  requestListener req initial =
    (Ok tt, answered 400 json_header (Some (qq "{'error':'Invalid JSON'}")) [p]).
Proof.
  intros Hm Hu Hp Hd.
  rewrite (listener_POST req _ Hm Hu).
  unfold end_listener, try_catch. rewrite Hp.
  destruct (adapters_throw_on_nullish data Hd) as ((ea & Ha) & (eo & Ho) & (eg & Hg)).
  destruct p; unfold route.
  - change (is_path (Some "/anthropic") "/anthropic") with true. cbv iota.
    rewrite Ha. reflexivity.
  - change (is_path (Some "/openai") "/anthropic") with false.
    change (is_path (Some "/openai") "/openai") with true. cbv iota.
    rewrite Ho. reflexivity.
  - change (is_path (Some "/google") "/anthropic") with false.
    change (is_path (Some "/google") "/openai") with false.
    change (is_path (Some "/google") "/google") with true. cbv iota.
    rewrite Hg. reflexivity.
Qed.

Lemma routed_outcome (req : IncomingMessage) (p : Provider) (data : value) :
  req_method req = "POST" ->
  url_parse_pathname (req_url req) = Ok (Some (route p)) ->
  JSON_parse (buffered_body req) = Some data ->
  (exists o pd, requestListener req initial = (Ok tt, forwarded p o pd)) \/
  requestListener req initial =
    (Ok tt, answered 400 json_header (Some (qq "{'error':'Invalid JSON'}")) [p]).
Proof.
  intros Hm Hu Hp.
  rewrite (listener_POST req _ Hm Hu).
  unfold end_listener, try_catch. rewrite Hp.
  destruct (adapter_outcome data) as (Ha & Ho & Hg).
  destruct p; unfold route.
  - change (is_path (Some "/anthropic") "/anthropic") with true. cbv iota.
    destruct Ha as [(o & pd & H) | (e & H)]; rewrite H; [left; eauto | right; reflexivity].
  - change (is_path (Some "/openai") "/anthropic") with false.
    change (is_path (Some "/openai") "/openai") with true. cbv iota.
    destruct Ho as [(o & pd & H) | (e & H)]; rewrite H; [left; eauto | right; reflexivity].
  - change (is_path (Some "/google") "/anthropic") with false.
    change (is_path (Some "/google") "/openai") with false.
    change (is_path (Some "/google") "/google") with true. cbv iota.
    destruct Hg as [(o & pd & H) | (e & H)]; rewrite H; [left; eauto | right; reflexivity].
Qed.

(** The handler that reports a body [JSON.parse] rejects also catches
    whatever an adapter throws.  A POST on the path of a provider whose
    body does parse is either sent on to that provider, or answered with
    status 400 and [{"error":"Invalid JSON"}] after the adapter was
    entered, with no outbound request and whatever the upstream events;
    the latter is what the body [null] gets. *)
Theorem adapter_failure_reported_as_invalid_json :
  forall (req : IncomingMessage) (p : Provider) (data : value)
         (evs : list UpstreamEvent),
    req_method req = "POST" ->
    url_parse_pathname (req_url req) = Ok (Some (route p)) ->
    JSON_parse (buffered_body req) = Some data ->
    ((exists o pd, requestListener req initial = (Ok tt, forwarded p o pd)) \/
     serve req evs =
       (Ok tt, answered 400 json_header (Some (qq "{'error':'Invalid JSON'}")) [p])) /\
    (nullish data = true ->
     serve req evs =
       (Ok tt, answered 400 json_header (Some (qq "{'error':'Invalid JSON'}")) [p])).
Proof.
  intros req p data evs Hm Hu Hp. split.
  - destruct (routed_outcome req p data Hm Hu Hp) as [H | H]; [left; exact H | right].
    unfold serve, bind. rewrite H. apply deliver_all_answered.
  - intros Hd. unfold serve, bind.
    rewrite (routed_nullish req p data Hm Hu Hp Hd). apply deliver_all_answered.
Qed.

(** When [https.request] refuses a header whose value is [undefined], as
    Node does, a relay started without the Anthropic key sends nothing to
    Anthropic: every POST on [/anthropic] is answered with status 400 and
    [{"error":"Invalid JSON"}], whatever its body. *)
Theorem undefined_key_blocks_anthropic :
  forall (req : IncomingMessage) (evs : list UpstreamEvent),
    (forall o : RequestOptions,
       In ("x-api-key", VUndefined) (headers o) -> https_request_check o <> None) ->
    anthropic keys = None ->
    req_method req = "POST" ->
    url_parse_pathname (req_url req) = Ok (Some "/anthropic") ->
    exists ps,
      serve req evs =
        (Ok tt, answered 400 json_header (Some (qq "{'error':'Invalid JSON'}")) ps) /\
      outbound (snd (serve req evs)) = [].
Proof.
  intros req evs Hcheck Hkey Hm Hu.
  assert (Hl : exists ps,
             requestListener req initial =
               (Ok tt, answered 400 json_header (Some (qq "{'error':'Invalid JSON'}")) ps)).
  { destruct (JSON_parse (buffered_body req)) as [data |] eqn:Hp.
    - destruct (routed_outcome req Anthropic data Hm Hu Hp)
        as [(o & pd & H) | H]; [| eauto].
      exfalso.
      destruct (forwarded_inversion req Anthropic o pd H)
        as (_ & Hc & _ & _ & _ & _ & _ & Ho).
      apply (Hcheck o); [| exact Hc].
      rewrite Ho. unfold anthropic_options. rewrite Hkey. simpl. auto.
    - rewrite (listener_POST req _ Hm Hu), (end_listener_invalid _ _ Hp). eauto. }
  destruct Hl as (ps & Hl). exists ps.
  unfold serve, bind. rewrite Hl, deliver_all_answered. split; reflexivity.
Qed.

(** *** Preflight, other methods, and the count of responses *)

(** A preflight request is answered at once with status 200, an empty body
    and the cross-origin headers; nothing is routed. *)
Theorem preflight_answered :
  forall (req : IncomingMessage) (evs : list UpstreamEvent),
    req_method req = "OPTIONS" ->
    exists st,
      serve req evs = (Ok tt, st) /\
      response_of (req_method req) (res st) =
        Some {| status := 200; headers_set := cors_headers; body := "" |} /\
      dispatched st = [] /\
      outbound st = [].
Proof.
  intros req evs Hm. exists (answered 200 [] None []). split.
  - unfold serve, bind. rewrite (listener_OPTIONS req Hm).
    apply deliver_all_answered.
  - rewrite Hm. repeat split; reflexivity.
Qed.

(** A method other than POST and OPTIONS is answered with status 405; the
    script gives [{"error":"Method not allowed"}] as the body, which
    reaches the caller unless the method is HEAD, to which Node sends no
    body. *)
Theorem other_methods_rejected :
  forall (req : IncomingMessage) (evs : list UpstreamEvent),
    req_method req <> "OPTIONS" ->
    req_method req <> "POST" ->
    exists st,
      serve req evs = (Ok tt, st) /\
      response_of (req_method req) (res st) =
        Some {| status := 405;
                headers_set := (cors_headers ++ json_header)%list;
                body := if String.eqb (req_method req) "HEAD" then ""
                        else qq "{'error':'Method not allowed'}" |} /\
      ends_written (res st) = 1%nat /\
      dispatched st = [] /\
      outbound st = [].
Proof.
  intros req evs Ho Hp.
  exists (answered 405 json_header (Some (qq "{'error':'Method not allowed'}")) []).
  split.
  - unfold serve, bind. rewrite (listener_other_method req Ho Hp).
    apply deliver_all_answered.
  - split; [| repeat split; reflexivity].
    unfold answered. cbn [res].
    rewrite response_of_answer, (body_sent_HEAD _ 405 _ eq_refl). reflexivity.
Qed.

(** No deadline is set on the outbound request: while the upstream has
    neither completed its response nor failed, nothing is written to the
    caller. *)
Theorem silent_upstream_leaves_caller_waiting :
  forall (req : IncomingMessage) (p : Provider) (o : RequestOptions)
         (postData : string) (evs : list UpstreamEvent),
    requestListener req initial = (Ok tt, forwarded p o postData) ->
    forallb in_flight evs = true ->
    exists st,
      serve req evs = (Ok tt, st) /\
      response_of (req_method req) (res st) = None /\
      heads_written (res st) = 0%nat.
Proof.
  intros req p o pd evs Hl Hevs.
  destruct (deliver_all_in_flight evs p o pd cors_calls None Hevs) as [pr Hrun].
  exists (relaying p o pd cors_calls pr). split.
  - unfold serve, bind. rewrite Hl. exact Hrun.
  - split; reflexivity.
Qed.

(** Whatever the request and whatever the upstream does, at most one
    response is written to the caller, at most one adapter is entered and
    at most one outbound request is created. *)
Theorem at_most_one_response_and_request :
  forall (req : IncomingMessage) (evs : list UpstreamEvent),
    (heads_written (res (snd (serve req evs))) <= 1)%nat /\
    (ends_written (res (snd (serve req evs))) <= 1)%nat /\
    (length (dispatched (snd (serve req evs))) <= 1)%nat /\
    (length (outbound (snd (serve req evs))) <= 1)%nat.
Proof.
  intros req evs.
  destruct (serve_shape req evs)
    as [(p & o & pd & log & pr & H & Hs) | [(s & hs & d & ps & H & Hhs & Hps) | (e & H)]];
    rewrite H.
  - destruct Hs as [-> | (s & hs & d & -> & _)]; repeat split; cbv; lia.
  - repeat split; try (cbv; lia). exact Hps.
  - repeat split; cbv; lia.
Qed.

(** *** The payloads *)

(** C2, as amended.  For a body that parses to anything but [null], the
    Anthropic adapter writes the JSON text of an object with the
    properties [model], [max_tokens], [messages], in this order: [model]
    and [messages] are the input's (left out by [JSON.stringify] when the
    input has none) and [max_tokens] is the input's when that is truthy
    and 4096 otherwise.  One request is created, to
    [api.anthropic.com/v1/messages], and nothing is written to the
    caller yet. *)
Theorem anthropic_payload :
  forall (req : IncomingMessage) (data : value),
    req_method req = "POST" ->
    url_parse_pathname (req_url req) = Ok (Some "/anthropic") ->
    JSON_parse (buffered_body req) = Some data ->
    nullish data = false ->
    let mt := field data max_tokens in
    let postData :=
      object_text [("model", field data model);
                   ("max_tokens", if ToBoolean mt then mt else VNumber 4096);
                   ("messages", field data messages)] in
    let options := anthropic_options (Buffer_byteLength postData) in
    https_request_check options = None ->
    requestListener req initial = (Ok tt, forwarded Anthropic options postData).
Proof.
  intros req data Hm Hu Hp Hd mt postData options Hc.
  rewrite (listener_POST req _ Hm Hu).
  unfold end_listener, try_catch. rewrite Hp.
  change (is_path (Some "/anthropic") "/anthropic") with true. cbv iota.
  rewrite (proxyToAnthropic_sends data Hd).
  fold mt. fold postData. fold options.
  rewrite (send_accepted options postData Anthropic Hc). reflexivity.
Qed.

(** C3, as amended.  For a body that parses to anything but [null], the
    OpenAI adapter writes the JSON text of an object with the properties
    [model] and [messages] of the input and nothing else: a second body
    with the same [model] and [messages], whatever else it holds, is sent
    on identically. *)
Theorem openai_payload :
  forall (req : IncomingMessage) (data : value),
    req_method req = "POST" ->
    url_parse_pathname (req_url req) = Ok (Some "/openai") ->
    JSON_parse (buffered_body req) = Some data ->
    nullish data = false ->
    let postData :=
      object_text [("model", field data model); ("messages", field data messages)] in
    let options :=
      openai_options (key_text (openai keys)) (Buffer_byteLength postData) in
    https_request_check options = None ->
    requestListener req initial = (Ok tt, forwarded OpenAI options postData) /\
    (forall (req' : IncomingMessage) (data' : value),
       req_method req' = "POST" ->
       url_parse_pathname (req_url req') = Ok (Some "/openai") ->
       JSON_parse (buffered_body req') = Some data' ->
       nullish data' = false ->
       field data' model = field data model ->
       field data' messages = field data messages ->
       requestListener req' initial = requestListener req initial).
Proof.
  assert (sent_on : forall (r : IncomingMessage) (d : value),
             req_method r = "POST" ->
             url_parse_pathname (req_url r) = Ok (Some "/openai") ->
             JSON_parse (buffered_body r) = Some d ->
             nullish d = false ->
             let pd := object_text [("model", field d model);
                                    ("messages", field d messages)] in
             let o := openai_options (key_text (openai keys)) (Buffer_byteLength pd) in
             https_request_check o = None ->
             requestListener r initial = (Ok tt, forwarded OpenAI o pd)).
  { intros r d Hm Hu Hp Hd pd o Hc.
    rewrite (listener_POST r _ Hm Hu).
    unfold end_listener, try_catch. rewrite Hp.
    change (is_path (Some "/openai") "/anthropic") with false.
    change (is_path (Some "/openai") "/openai") with true. cbv iota.
    rewrite (proxyToOpenAI_sends d Hd).
    fold pd. fold o.
    rewrite (send_accepted o pd OpenAI Hc). reflexivity. }
  intros req data Hm Hu Hp Hd postData options Hc. split.
  - exact (sent_on req data Hm Hu Hp Hd Hc).
  - intros req' data' Hm' Hu' Hp' Hd' Emodel Emessages.
    rewrite (sent_on req data Hm Hu Hp Hd Hc).
    unfold options, postData in *. rewrite <- Emodel, <- Emessages in *.
    exact (sent_on req' data' Hm' Hu' Hp' Hd' Hc).
Qed.

(** C4, as amended.  For a body that parses to anything but [null] and
    whose [model] a template literal can print, the Google adapter writes
    the JSON text of [{contents: [{parts: [{text: prompt}]}]}]; the request
    goes to the path [/v1beta/models/<model>:generateContent?key=<key>],
    and its headers are [Content-Type] and [Content-Length] only.  Only
    [prompt] and [model] are read: a second body with the same two,
    whatever its [messages], is sent on identically. *)
Theorem google_payload :
  forall (req : IncomingMessage) (data : value) (name : string),
    req_method req = "POST" ->
    url_parse_pathname (req_url req) = Ok (Some "/google") ->
    JSON_parse (buffered_body req) = Some data ->
    nullish data = false ->
    ToString Number_toString (field data model) = Ok name ->
    let postData :=
      object_text
        [("contents",
          VArray [VObject [("parts", VArray [VObject [("text", field data prompt)]])]])] in
    let options :=
      google_options name (key_text (google keys)) (Buffer_byteLength postData) in
    https_request_check options = None ->
    requestListener req initial = (Ok tt, forwarded Google options postData) /\
    path options =
      "/v1beta/models/" ++ name ++ ":generateContent?key=" ++ key_text (google keys) /\
    map fst (headers options) = ["Content-Type"; "Content-Length"] /\
    (forall (req' : IncomingMessage) (data' : value),
       req_method req' = "POST" ->
       url_parse_pathname (req_url req') = Ok (Some "/google") ->
       JSON_parse (buffered_body req') = Some data' ->
       nullish data' = false ->
       field data' prompt = field data prompt ->
       field data' model = field data model ->
       requestListener req' initial = requestListener req initial).
Proof.
  assert (sent_on : forall (r : IncomingMessage) (d : value) (n : string),
             req_method r = "POST" ->
             url_parse_pathname (req_url r) = Ok (Some "/google") ->
             JSON_parse (buffered_body r) = Some d ->
             nullish d = false ->
             ToString Number_toString (field d model) = Ok n ->
             let pd :=
               object_text
                 [("contents",
                   VArray [VObject [("parts",
                                     VArray [VObject [("text", field d prompt)]])]])] in
             let o := google_options n (key_text (google keys)) (Buffer_byteLength pd) in
             https_request_check o = None ->
             requestListener r initial = (Ok tt, forwarded Google o pd)).
  { intros r d n Hm Hu Hp Hd Hn pd o Hc.
    rewrite (listener_POST r _ Hm Hu).
    unfold end_listener, try_catch. rewrite Hp.
    change (is_path (Some "/google") "/anthropic") with false.
    change (is_path (Some "/google") "/openai") with false.
    change (is_path (Some "/google") "/google") with true. cbv iota.
    rewrite (proxyToGoogle_sends d n Hd Hn).
    fold pd. fold o.
    rewrite (send_accepted o pd Google Hc). reflexivity. }
  intros req data name Hm Hu Hp Hd Hn postData options Hc.
  split; [| split; [| split]].
  - exact (sent_on req data name Hm Hu Hp Hd Hn Hc).
  - reflexivity.
  - reflexivity.
  - intros req' data' Hm' Hu' Hp' Hd' Eprompt Emodel.
    rewrite (sent_on req data name Hm Hu Hp Hd Hn Hc).
    unfold options, postData in *. rewrite <- Emodel in Hn.
    rewrite <- Eprompt in *.
    exact (sent_on req' data' name Hm' Hu' Hp' Hd' Hn Hc).
Qed.

End Script.

(** ** The relay run on the reference platform *)

Abbreviation run :=
  (serve Reference.JSON_parse Reference.url_parse_pathname
     Reference.Number_toString Reference.https_request_check sample_keys).

Abbreviation listen :=
  (requestListener Reference.JSON_parse Reference.url_parse_pathname
     Reference.Number_toString Reference.https_request_check sample_keys).

(** The reference [JSON.parse] never yields [undefined]: of the values it
    returns, [null] is the only one an adapter cannot read a property of. *)
Lemma parse_value_defined (fuel : nat) (s : string) (v : value) (rest : string) :
  Reference.parse_value fuel s = Some (v, rest) -> v <> VUndefined.
Proof.
  destruct fuel as [| fuel]; simpl; [discriminate |].
  repeat match goal with
         | |- context [match ?x with _ => _ end] => destruct x
         end;
    intros H; try discriminate; injection H as <- _;
    unfold Reference.make_object; discriminate.
Qed.

Lemma JSON_parse_nullish (text : string) (v : value) :
  Reference.JSON_parse text = Some v -> (nullish v = false <-> v <> VNull).
Proof.
  unfold Reference.JSON_parse.
  destruct (Reference.parse_value _ text) as [[v' rest] |] eqn:Hp; [| discriminate].
  destruct (Reference.skip_ws rest); [| discriminate].
  intros H. injection H as ->.
  pose proof (parse_value_defined _ _ _ _ Hp) as Hu.
  destruct v; simpl; split; intros; try congruence; try discriminate.
Qed.

Lemma parse_chars_escape_char (c : ascii) (tail : string) :
  Reference.parse_chars (escape_char c ++ tail) =
    Reference.prepend (String c "") (Reference.parse_chars tail).
Proof.
  destruct c as [[] [] [] [] [] [] [] []]; reflexivity.
Qed.

Lemma parse_chars_escape (s rest : string) :
  Reference.parse_chars (escape s ++ String DQUOTE rest) = Some (s, rest).
Proof.
  induction s as [| c s IH]; [reflexivity |].
  cbn [escape]. rewrite string_app_assoc, parse_chars_escape_char, IH. reflexivity.
Qed.

Lemma check_refuses_undefined (o : RequestOptions) (name : string) :
  In (name, VUndefined) (headers o) -> Reference.https_request_check o <> None.
Proof.
  intros Hin. unfold Reference.https_request_check.
  destruct (negb (Reference.valid_path (path o))); [discriminate |].
  destruct (forallb (fun h => Reference.valid_header_value (snd h)) (headers o)) eqn:Hall;
    [| discriminate].
  rewrite forallb_forall in Hall. specialize (Hall _ Hin). discriminate Hall.
Qed.

(** The body of an error answer, [JSON.stringify({ error: message })], is
    JSON text whatever the message holds, quotes, backslashes and control
    characters included: [JSON.parse] reads it back as an object whose
    only member is [error], with the message unchanged. *)
Theorem error_body_parses_back :
  forall (Number_toString : float -> string) (message : string),
    exists text,
      error_body Number_toString message = Some text /\
      Reference.JSON_parse text = Some (VObject [("error", VString message)]).
Proof.
  intros nts message. eexists. split; [apply error_body_text |].
  unfold Reference.JSON_parse.
  set (text := qq "{'error':" ++ QuoteJSONString message ++ "}").
  assert (Hfuel : exists n, (2 * String.length text + 2 = S (S (S n)))%nat).
  { exists (2 * String.length text - 1)%nat. unfold text. simpl. lia. }
  destruct Hfuel as [n ->].
  assert (Htext : text = qq "{'error':'" ++ escape message ++ String DQUOTE "}").
  { unfold text, QuoteJSONString. simpl. rewrite string_app_assoc. reflexivity. }
  rewrite Htext. simpl. rewrite parse_chars_escape. reflexivity.
Qed.

(** The witness of C2: a body with a truthy [max_tokens]. *)
Lemma anthropic_payload_witness :
  let text :=
    "{'model':'claude-3','max_tokens':1024,'messages':[{'role':'user','content':'hi'}]}" in
  let req := POST "/anthropic" text in
  let data :=
    VObject [("model", VString "claude-3");
             ("max_tokens", VNumber 1024);
             ("messages",
              VArray [VObject [("role", VString "user"); ("content", VString "hi")]])] in
  let options := anthropic_options sample_keys (Buffer_byteLength (qq text)) in
  req_method req = "POST" /\
  Reference.url_parse_pathname (req_url req) = Ok (Some "/anthropic") /\
  Reference.JSON_parse (buffered_body req) = Some data /\
  nullish data = false /\
  Reference.https_request_check options = None /\
  listen req initial = (Ok tt, forwarded Anthropic options (qq text)).
Proof.
  pose proof
    (anthropic_payload Reference.JSON_parse Reference.url_parse_pathname
       Reference.Number_toString Reference.https_request_check sample_keys
       (POST "/anthropic"
          "{'model':'claude-3','max_tokens':1024,'messages':[{'role':'user','content':'hi'}]}")
       (VObject [("model", VString "claude-3");
                 ("max_tokens", VNumber 1024);
                 ("messages",
                  VArray [VObject [("role", VString "user");
                                   ("content", VString "hi")]])])
       eq_refl eq_refl ltac:(vm_compute; reflexivity) eq_refl
       ltac:(vm_compute; reflexivity)) as H.
  repeat split; first [exact H | vm_compute; reflexivity].
Defined.

(** The counterexamples to C2 as stated.  The first input has
    [max_tokens], equal to 0, and the payload carries 4096 in its place.
    The second is the body [null], valid JSON: the adapter throws on
    [data.model], the relay answers 400 and no payload is built. *)
Lemma anthropic_zero_max_tokens_replaced :
  let req := POST "/anthropic" "{'model':'claude-3','max_tokens':0,'messages':[]}" in
  let null := POST "/anthropic" "null" in
  (Reference.JSON_parse (buffered_body req) =
     Some (VObject [("model", VString "claude-3");
                    ("max_tokens", VNumber 0);
                    ("messages", VArray [])]) /\
   map written (outbound (snd (run req []))) =
     [qq "{'model':'claude-3','max_tokens':4096,'messages':[]}"] /\
   map written (outbound (snd (run req []))) <>
     [qq "{'model':'claude-3','max_tokens':0,'messages':[]}"]) /\
  (Reference.JSON_parse (buffered_body null) = Some VNull /\
   run null [] =
     (Ok tt, answered 400 json_header (Some (qq "{'error':'Invalid JSON'}")) [Anthropic])).
Proof.
  repeat split; try (vm_compute; reflexivity).
  vm_compute. discriminate.
Qed.

(** The witness of C3: the round trip of the specification.  The payload
    written is the body received, and the same body with [max_tokens] and
    [temperature] added is sent on identically. *)
Lemma openai_payload_witness :
  let text := "{'model':'gpt-4','messages':[{'role':'user','content':'hi'}]}" in
  let req := POST "/openai" text in
  let data :=
    VObject [("model", VString "gpt-4");
             ("messages",
              VArray [VObject [("role", VString "user"); ("content", VString "hi")]])] in
  let options := openai_options "sk-sample" (Buffer_byteLength (qq text)) in
  let req' :=
    POST "/openai"
      "{'max_tokens':5,'model':'gpt-4','temperature':0.5,'messages':[{'role':'user','content':'hi'}]}" in
  req_method req = "POST" /\
  Reference.url_parse_pathname (req_url req) = Ok (Some "/openai") /\
  Reference.JSON_parse (buffered_body req) = Some data /\
  nullish data = false /\
  Reference.https_request_check options = None /\
  listen req initial = (Ok tt, forwarded OpenAI options (qq text)) /\
  listen req' initial = listen req initial.
Proof.
  pose proof
    (openai_payload Reference.JSON_parse Reference.url_parse_pathname
       Reference.Number_toString Reference.https_request_check sample_keys
       (POST "/openai" "{'model':'gpt-4','messages':[{'role':'user','content':'hi'}]}")
       (VObject [("model", VString "gpt-4");
                 ("messages",
                  VArray [VObject [("role", VString "user");
                                   ("content", VString "hi")]])])
       eq_refl eq_refl ltac:(vm_compute; reflexivity) eq_refl
       ltac:(vm_compute; reflexivity)) as [H Hsame].
  pose proof
    (Hsame
       (POST "/openai"
          "{'max_tokens':5,'model':'gpt-4','temperature':0.5,'messages':[{'role':'user','content':'hi'}]}")
       (VObject [("max_tokens", VNumber 5);
                 ("model", VString "gpt-4");
                 ("temperature", VNumber 0.5);
                 ("messages",
                  VArray [VObject [("role", VString "user");
                                   ("content", VString "hi")]])])
       eq_refl eq_refl ltac:(vm_compute; reflexivity) eq_refl eq_refl eq_refl) as H'.
  repeat split; first [exact H | exact H' | vm_compute; reflexivity].
Defined.

(** The counterexample to C3 as stated: the body [null] is valid JSON, and
    the OpenAI adapter, entered with it, throws on [data.model]; the relay
    answers 400 and no payload is built. *)
Lemma openai_null_body_rejected :
  let req := POST "/openai" "null" in
  Reference.JSON_parse (buffered_body req) = Some VNull /\
  run req [] =
    (Ok tt, answered 400 json_header (Some (qq "{'error':'Invalid JSON'}")) [OpenAI]) /\
  outbound (snd (run req [])) = [].
Proof. repeat split; vm_compute; reflexivity. Qed.

(** The witness of C4: a body with [model], [prompt] and [messages]; the
    same body without [messages] is sent on identically. *)
Lemma google_payload_witness :
  let req :=
    POST "/google"
      "{'model':'gemini-pro','prompt':'Hello','messages':[{'role':'user','content':'hi'}]}" in
  let data :=
    VObject [("model", VString "gemini-pro");
             ("prompt", VString "Hello");
             ("messages",
              VArray [VObject [("role", VString "user"); ("content", VString "hi")]])] in
  let postData := qq "{'contents':[{'parts':[{'text':'Hello'}]}]}" in
  let options := google_options "gemini-pro" "AIza-sample" (Buffer_byteLength postData) in
  let req' := POST "/google" "{'model':'gemini-pro','prompt':'Hello'}" in
  req_method req = "POST" /\
  Reference.url_parse_pathname (req_url req) = Ok (Some "/google") /\
  Reference.JSON_parse (buffered_body req) = Some data /\
  nullish data = false /\
  ToString Reference.Number_toString (field data model) = Ok "gemini-pro" /\
  Reference.https_request_check options = None /\
  listen req initial = (Ok tt, forwarded Google options postData) /\
  path options = "/v1beta/models/gemini-pro:generateContent?key=AIza-sample" /\
  map fst (headers options) = ["Content-Type"; "Content-Length"] /\
  listen req' initial = listen req initial.
Proof.
  pose proof
    (google_payload Reference.JSON_parse Reference.url_parse_pathname
       Reference.Number_toString Reference.https_request_check sample_keys
       (POST "/google"
          "{'model':'gemini-pro','prompt':'Hello','messages':[{'role':'user','content':'hi'}]}")
       (VObject [("model", VString "gemini-pro");
                 ("prompt", VString "Hello");
                 ("messages",
                  VArray [VObject [("role", VString "user");
                                   ("content", VString "hi")]])])
       "gemini-pro"
       eq_refl eq_refl ltac:(vm_compute; reflexivity) eq_refl eq_refl
       ltac:(vm_compute; reflexivity)) as (H & Hpath & Hheaders & Hsame).
  pose proof
    (Hsame
       (POST "/google" "{'model':'gemini-pro','prompt':'Hello'}")
       (VObject [("model", VString "gemini-pro"); ("prompt", VString "Hello")])
       eq_refl eq_refl ltac:(vm_compute; reflexivity) eq_refl eq_refl eq_refl) as H'.
  repeat split;
    first [exact H | exact Hpath | exact Hheaders | exact H' | vm_compute; reflexivity].
Defined.

(** The counterexamples to C4 as stated.  The body [null] is valid JSON,
    and the Google adapter, entered with it, throws on [data.prompt].  A
    body whose [model] is an object with an own [toString] property is
    valid JSON too, and the template literal of the path throws on it.
    Either way the relay answers 400 and no request is created. *)
Lemma google_null_body_rejected :
  let null := POST "/google" "null" in
  let req := POST "/google" "{'model':{'toString':1},'prompt':'Hello'}" in
  (Reference.JSON_parse (buffered_body null) = Some VNull /\
   run null [] =
     (Ok tt, answered 400 json_header (Some (qq "{'error':'Invalid JSON'}")) [Google])) /\
  (Reference.JSON_parse (buffered_body req) =
     Some (VObject [("model", VObject [("toString", VNumber 1)]);
                    ("prompt", VString "Hello")]) /\
   run req [] =
     (Ok tt, answered 400 json_header (Some (qq "{'error':'Invalid JSON'}")) [Google])).
Proof. repeat split; vm_compute; reflexivity. Qed.

(** C5 (the script fails it).  The upstream answers 200 with the 17 bytes
    of [{"reply":"café"}], delivered in two chunks that part the two bytes
    of [é].  Each chunk is decoded on its own, so each half becomes
    U+FFFD: the caller receives 21 bytes, not the upstream's 17. *)
Theorem split_character_is_replaced :
  let req := POST "/openai" "{'model':'gpt-4','messages':[]}" in
  let first := (bytes_of (qq "{'reply':'caf") ++ [xc3])%list in
  let second := (xa9 :: bytes_of (qq "'}"))%list in
  exists r,
    response_of (req_method req)
      (res (snd (run req [ResponseHead 200; Data first; Data second; EndOfResponse]))) =
      Some r /\
    status r = 200%Z /\
    bytes_of (body r) =
      (bytes_of (qq "{'reply':'caf") ++ [xef; xbf; xbd; xef; xbf; xbd]
         ++ bytes_of (qq "'}"))%list /\
    bytes_of (body r) <> (first ++ second)%list.
Proof.
  eexists. split; [vm_compute; reflexivity |].
  repeat split; try (vm_compute; reflexivity).
  vm_compute. discriminate.
Qed.

(** The witness of C6: Anthropic sends the head and a first chunk of its
    response, and the connection closes. *)
Lemma closed_connection_is_never_answered_witness :
  let req := POST "/anthropic" "{'model':'claude-3','messages':[]}" in
  let postData := qq "{'model':'claude-3','max_tokens':4096,'messages':[]}" in
  let o := anthropic_options sample_keys (Buffer_byteLength postData) in
  listen req initial = (Ok tt, forwarded Anthropic o postData) /\
  exists st,
    run req (ResponseHead 200 :: map Data [bytes_of (qq "{'id':")] ++ [Aborted])%list =
      (Ok tt, st) /\
    response_of (req_method req) (res st) = None /\
    heads_written (res st) = 0%nat /\
    ends_written (res st) = 0%nat /\
    outbound st = [{| options := o; written := postData; ended := true |}].
Proof.
  split; [vm_compute; reflexivity |].
  apply (closed_connection_is_never_answered Reference.JSON_parse
           Reference.url_parse_pathname Reference.Number_toString
           Reference.https_request_check sample_keys
           (POST "/anthropic" "{'model':'claude-3','messages':[]}") Anthropic).
  vm_compute. reflexivity.
Defined.

(** The connection to Anthropic is reset, with an error, after the head
    and a first chunk of the upstream response have arrived. *)
Lemma upstream_failure_yields_500_witness :
  let req := POST "/anthropic" "{'model':'claude-3','messages':[]}" in
  let postData := qq "{'model':'claude-3','max_tokens':4096,'messages':[]}" in
  let o := anthropic_options sample_keys (Buffer_byteLength postData) in
  let evs := [ResponseHead 200; Data (bytes_of "{")] in
  listen req initial = (Ok tt, forwarded Anthropic o postData) /\
  forallb in_flight evs = true /\
  exists st,
    run req (evs ++ [Error "read ECONNRESET"]) = (Ok tt, st) /\
    response_of (req_method req) (res st) =
      Some {| status := 500;
              headers_set := (cors_headers ++ json_header)%list;
              body := qq "{'error':" ++ QuoteJSONString "read ECONNRESET" ++ "}" |} /\
    heads_written (res st) = 1%nat /\
    ends_written (res st) = 1%nat /\
    outbound st = [{| options := o; written := postData; ended := true |}].
Proof.
  split; [vm_compute; reflexivity |].
  split; [reflexivity |].
  apply (upstream_failure_yields_500 Reference.JSON_parse
           Reference.url_parse_pathname Reference.Number_toString
           Reference.https_request_check sample_keys
           (POST "/anthropic" "{'model':'claude-3','messages':[]}") Anthropic).
  - vm_compute. reflexivity.
  - reflexivity.
Defined.

(** The witness of C7: a rate-limit answer of the upstream, passed on
    under its own status code. *)
Lemma every_response_carries_cors_witness :
  let req := POST "/openai" "{'model':'gpt-4','messages':[]}" in
  let evs := [ResponseHead 429;
              Data (bytes_of (qq "{'error':{'type':'rate_limit'}}"));
              EndOfResponse] in
  let r := {| status := 429;
              headers_set := (cors_headers ++ json_header)%list;
              body := qq "{'error':{'type':'rate_limit'}}" |} in
  response_of (req_method req) (res (snd (run req evs))) = Some r /\
  In ("Access-Control-Allow-Origin", "*") (headers_set r) /\
  In ("Access-Control-Allow-Methods", "POST, OPTIONS") (headers_set r) /\
  In ("Access-Control-Allow-Headers", "Content-Type") (headers_set r).
Proof.
  split; [vm_compute; reflexivity |].
  apply (every_response_carries_cors Reference.JSON_parse
           Reference.url_parse_pathname Reference.Number_toString
           Reference.https_request_check sample_keys
           (POST "/openai" "{'model':'gpt-4','messages':[]}")
           [ResponseHead 429;
            Data (bytes_of (qq "{'error':{'type':'rate_limit'}}"));
            EndOfResponse]).
  vm_compute. reflexivity.
Defined.

(** The witness of C8: [POST /anthropic] with the body [not-json]. *)
Lemma invalid_json_yields_400_witness :
  let req := POST "/anthropic" "not-json" in
  req_method req = "POST" /\
  Reference.url_parse_pathname (req_url req) = Ok (Some "/anthropic") /\
  Reference.JSON_parse (buffered_body req) = None /\
  exists st,
    run req [] = (Ok tt, st) /\
    response_of (req_method req) (res st) =
      Some {| status := 400;
              headers_set := (cors_headers ++ json_header)%list;
              body := qq "{'error':'Invalid JSON'}" |} /\
    heads_written (res st) = 1%nat /\
    dispatched st = [] /\
    outbound st = [].
Proof.
  repeat split; try reflexivity.
  apply (invalid_json_yields_400 Reference.JSON_parse Reference.url_parse_pathname
           Reference.Number_toString Reference.https_request_check sample_keys
           (POST "/anthropic" "not-json") (Some "/anthropic") []);
    reflexivity.
Defined.

(** The witness of C9: [POST /unknown?verbose=1] with the body [{}]; the
    same request without the query string is served alike. *)
Lemma unknown_path_yields_404_witness :
  let req := POST "/unknown?verbose=1" "{}" in
  req_method req = "POST" /\
  Reference.url_parse_pathname (req_url req) = Ok (Some "/unknown") /\
  Reference.JSON_parse (buffered_body req) = Some (VObject []) /\
  Some "/unknown" <> Some "/anthropic" /\
  Some "/unknown" <> Some "/openai" /\
  Some "/unknown" <> Some "/google" /\
  (exists st,
     run req [] = (Ok tt, st) /\
     response_of (req_method req) (res st) =
       Some {| status := 404;
               headers_set := (cors_headers ++ json_header)%list;
               body := qq "{'error':'Not found'}" |} /\
     heads_written (res st) = 1%nat /\
     dispatched st = [] /\
     outbound st = []) /\
  run (POST "/unknown" "{}") [] = run req [].
Proof.
  assert (Ha : Some "/unknown" <> Some "/anthropic") by discriminate.
  assert (Ho : Some "/unknown" <> Some "/openai") by discriminate.
  assert (Hg : Some "/unknown" <> Some "/google") by discriminate.
  destruct (unknown_path_yields_404 Reference.JSON_parse Reference.url_parse_pathname
              Reference.Number_toString Reference.https_request_check sample_keys
              (POST "/unknown?verbose=1" "{}") (Some "/unknown") (VObject []) []
              eq_refl eq_refl eq_refl Ha Ho Hg) as [H404 Hsame].
  pose proof (Hsame (POST "/unknown" "{}") eq_refl eq_refl eq_refl) as Hquery.
  repeat split; try assumption; reflexivity.
Defined.

(** The witness of C10: [POST /unknown] with the body [not-json]. *)
Lemma invalid_json_precedes_routing_witness :
  let req := POST "/unknown" "not-json" in
  req_method req = "POST" /\
  Reference.url_parse_pathname (req_url req) = Ok (Some "/unknown") /\
  Some "/unknown" <> Some "/anthropic" /\
  Some "/unknown" <> Some "/openai" /\
  Some "/unknown" <> Some "/google" /\
  Reference.JSON_parse (buffered_body req) = None /\
  exists r,
    response_of (req_method req) (res (snd (run req []))) = Some r /\
    status r = 400%Z /\
    body r = qq "{'error':'Invalid JSON'}" /\
    status r <> 404%Z /\
    body r <> qq "{'error':'Not found'}".
Proof.
  assert (Ha : Some "/unknown" <> Some "/anthropic") by discriminate.
  assert (Ho : Some "/unknown" <> Some "/openai") by discriminate.
  assert (Hg : Some "/unknown" <> Some "/google") by discriminate.
  repeat split; try reflexivity; try assumption.
  exact (invalid_json_precedes_routing Reference.JSON_parse
           Reference.url_parse_pathname Reference.Number_toString
           Reference.https_request_check sample_keys
           (POST "/unknown" "not-json") (Some "/unknown") []
           eq_refl eq_refl Ha Ho Hg eq_refl).
Defined.

(** A preflight request to any target. *)
Lemma preflight_answered_witness :
  let req := {| req_method := "OPTIONS"; req_url := "/anthropic"; req_chunks := [] |} in
  req_method req = "OPTIONS" /\
  exists st,
    run req [] = (Ok tt, st) /\
    response_of (req_method req) (res st) =
      Some {| status := 200; headers_set := cors_headers; body := "" |} /\
    dispatched st = [] /\
    outbound st = [].
Proof.
  split; [reflexivity |].
  apply (preflight_answered Reference.JSON_parse Reference.url_parse_pathname
           Reference.Number_toString Reference.https_request_check sample_keys
           {| req_method := "OPTIONS"; req_url := "/anthropic"; req_chunks := [] |} []).
  reflexivity.
Defined.

(** A HEAD request: the status and the headers of the 405 answer, and no
    body. *)
Lemma other_methods_rejected_witness :
  let req := {| req_method := "HEAD"; req_url := "/openai"; req_chunks := [] |} in
  req_method req <> "OPTIONS" /\
  req_method req <> "POST" /\
  exists st,
    run req [] = (Ok tt, st) /\
    response_of (req_method req) (res st) =
      Some {| status := 405;
              headers_set := (cors_headers ++ json_header)%list;
              body := "" |} /\
    ends_written (res st) = 1%nat /\
    dispatched st = [] /\
    outbound st = [].
Proof.
  assert (Ho : "HEAD" <> "OPTIONS") by discriminate.
  assert (Hp : "HEAD" <> "POST") by discriminate.
  split; [exact Ho |]. split; [exact Hp |].
  exact (other_methods_rejected Reference.JSON_parse Reference.url_parse_pathname
           Reference.Number_toString Reference.https_request_check sample_keys
           {| req_method := "HEAD"; req_url := "/openai"; req_chunks := [] |} [] Ho Hp).
Defined.

(** An authentication failure of the upstream, in two chunks, reaches the
    caller under its status 401, byte for byte. *)
Lemma ascii_body_passes_through_witness :
  let req := POST "/openai" "{'model':'gpt-4','messages':[]}" in
  let postData := qq "{'model':'gpt-4','messages':[]}" in
  let o := openai_options "sk-sample" (Buffer_byteLength postData) in
  let chunks := [bytes_of (qq "{'error':{'message':'Incorrect "); bytes_of (qq "API key'}}")] in
  listen req initial = (Ok tt, forwarded OpenAI o postData) /\
  (100 <=? 401)%Z && (401 <=? 999)%Z = true /\
  forallb (forallb is_ascii) chunks = true /\
  exists r,
    response_of (req_method req)
      (res (snd (run req (ResponseHead 401 :: map Data chunks ++ [EndOfResponse])%list))) =
      Some r /\
    status r = 401%Z /\
    In ("Content-Type", "application/json") (headers_set r) /\
    bytes_of (body r) = concat chunks.
Proof.
  split; [vm_compute; reflexivity |].
  split; [reflexivity |].
  split; [vm_compute; reflexivity |].
  apply (ascii_body_passes_through Reference.JSON_parse Reference.url_parse_pathname
           Reference.Number_toString Reference.https_request_check sample_keys
           (POST "/openai" "{'model':'gpt-4','messages':[]}") OpenAI
           (openai_options "sk-sample"
              (Buffer_byteLength (qq "{'model':'gpt-4','messages':[]}")))
           (qq "{'model':'gpt-4','messages':[]}")).
  - vm_compute. reflexivity.
  - reflexivity.
  - vm_compute. reflexivity.
Defined.

(** An upstream that has sent its head and one chunk, and nothing since. *)
Lemma silent_upstream_leaves_caller_waiting_witness :
  let req := POST "/google" "{'model':'gemini-pro','prompt':'Hello'}" in
  let postData := qq "{'contents':[{'parts':[{'text':'Hello'}]}]}" in
  let o := google_options "gemini-pro" "AIza-sample" (Buffer_byteLength postData) in
  let evs := [ResponseHead 200; Data (bytes_of "{")] in
  listen req initial = (Ok tt, forwarded Google o postData) /\
  forallb in_flight evs = true /\
  exists st,
    run req evs = (Ok tt, st) /\
    response_of (req_method req) (res st) = None /\
    heads_written (res st) = 0%nat.
Proof.
  split; [vm_compute; reflexivity |].
  split; [reflexivity |].
  apply (silent_upstream_leaves_caller_waiting Reference.JSON_parse
           Reference.url_parse_pathname Reference.Number_toString
           Reference.https_request_check sample_keys
           (POST "/google" "{'model':'gemini-pro','prompt':'Hello'}") Google
           (google_options "gemini-pro" "AIza-sample"
              (Buffer_byteLength (qq "{'contents':[{'parts':[{'text':'Hello'}]}]}")))
           (qq "{'contents':[{'parts':[{'text':'Hello'}]}]}")).
  - vm_compute. reflexivity.
  - reflexivity.
Defined.

(** A request without [max_tokens], sent on to Anthropic. *)
Lemma outbound_frame_witness :
  let req := POST "/anthropic" "{'model':'claude-3','messages':[]}" in
  let postData := qq "{'model':'claude-3','max_tokens':4096,'messages':[]}" in
  let o := anthropic_options sample_keys (Buffer_byteLength postData) in
  listen req initial = (Ok tt, forwarded Anthropic o postData) /\
  method o = "POST" /\
  port o = 443%Z /\
  hostname o = "api.anthropic.com" /\
  lookup "Content-Type" (headers o) = Some (VString "application/json") /\
  lookup "Content-Length" (headers o) =
    Some (VNumber (number_of_Z (Buffer_byteLength postData))).
Proof.
  split; [vm_compute; reflexivity |].
  exact (outbound_frame Reference.JSON_parse Reference.url_parse_pathname
           Reference.Number_toString Reference.https_request_check sample_keys
           (POST "/anthropic" "{'model':'claude-3','messages':[]}") Anthropic
           (anthropic_options sample_keys
              (Buffer_byteLength
                 (qq "{'model':'claude-3','max_tokens':4096,'messages':[]}")))
           (qq "{'model':'claude-3','max_tokens':4096,'messages':[]}")
           ltac:(vm_compute; reflexivity)).
Defined.

(** A request sent on to Google: the key is in the path. *)
Lemma outbound_target_and_credential_witness :
  let req := POST "/google?trace=1" "{'model':'gemini-pro','prompt':'Hello'}" in
  let postData := qq "{'contents':[{'parts':[{'text':'Hello'}]}]}" in
  let o := google_options "gemini-pro" "AIza-sample" (Buffer_byteLength postData) in
  listen req initial = (Ok tt, forwarded Google o postData) /\
  Reference.url_parse_pathname (req_url req) = Ok (Some "/google") /\
  (exists name,
     path o = "/v1beta/models/" ++ name ++ ":generateContent?key=" ++ "AIza-sample") /\
  lookup "Authorization" (headers o) = None /\
  lookup "x-api-key" (headers o) = None.
Proof.
  split; [vm_compute; reflexivity |].
  exact (outbound_target_and_credential Reference.JSON_parse
           Reference.url_parse_pathname Reference.Number_toString
           Reference.https_request_check sample_keys
           (POST "/google?trace=1" "{'model':'gemini-pro','prompt':'Hello'}") Google
           (google_options "gemini-pro" "AIza-sample"
              (Buffer_byteLength (qq "{'contents':[{'parts':[{'text':'Hello'}]}]}")))
           (qq "{'contents':[{'parts':[{'text':'Hello'}]}]}")
           ltac:(vm_compute; reflexivity)).
Defined.

(** A request whose [max_tokens] is too large for a double. *)
Lemma anthropic_max_tokens_always_sent_witness :
  let req := POST "/anthropic" "{'model':'claude-3','max_tokens':1e400,'messages':[]}" in
  let postData := qq "{'model':'claude-3','max_tokens':null,'messages':[]}" in
  let o := anthropic_options sample_keys (Buffer_byteLength postData) in
  listen req initial = (Ok tt, forwarded Anthropic o postData) /\
  exists (data : value) (text : string),
    Reference.JSON_parse (buffered_body req) = Some data /\
    stringify Reference.Number_toString
      (if ToBoolean (field data max_tokens)
       then field data max_tokens else VNumber 4096) = Some text /\
    postData =
      "{" ++ join ","
               (member Reference.Number_toString "model" (field data model)
                  ++ [(QuoteJSONString "max_tokens" ++ ":" ++ text)%string]
                  ++ member Reference.Number_toString "messages" (field data messages))%list
          ++ "}" /\
    (ToBoolean (field data max_tokens) = false ->
     text = Reference.Number_toString 4096) /\
    (forall x : float,
       field data max_tokens = VNumber x ->
       ToBoolean (VNumber x) = true ->
       is_finite x = false ->
       text = "null").
Proof.
  split; [vm_compute; reflexivity |].
  exact (anthropic_max_tokens_always_sent Reference.JSON_parse
           Reference.url_parse_pathname Reference.Number_toString
           Reference.https_request_check sample_keys
           (POST "/anthropic" "{'model':'claude-3','max_tokens':1e400,'messages':[]}")
           (anthropic_options sample_keys
              (Buffer_byteLength
                 (qq "{'model':'claude-3','max_tokens':null,'messages':[]}")))
           (qq "{'model':'claude-3','max_tokens':null,'messages':[]}")
           ltac:(vm_compute; reflexivity)).
Defined.

(** An upstream body with a two-byte character inside its first chunk. *)
Lemma utf8_body_passes_through_witness :
  let req := POST "/openai" "{'model':'gpt-4','messages':[]}" in
  let postData := qq "{'model':'gpt-4','messages':[]}" in
  let o := openai_options "sk-sample" (Buffer_byteLength postData) in
  let chunks :=
    [(bytes_of (qq "{'text':'caf") ++ [Byte.xc3; Byte.xa9])%list; bytes_of (qq "'}")] in
  listen req initial = (Ok tt, forwarded OpenAI o postData) /\
  (100 <=? 200)%Z && (200 <=? 999)%Z = true /\
  forallb well_formed chunks = true /\
  exists r,
    response_of (req_method req)
      (res (snd (run req (ResponseHead 200 :: map Data chunks ++ [EndOfResponse])%list))) =
      Some r /\
    status r = 200%Z /\
    In ("Content-Type", "application/json") (headers_set r) /\
    bytes_of (body r) = concat chunks.
Proof.
  split; [vm_compute; reflexivity |].
  split; [reflexivity |].
  split; [vm_compute; reflexivity |].
  apply (utf8_body_passes_through Reference.JSON_parse Reference.url_parse_pathname
           Reference.Number_toString Reference.https_request_check sample_keys
           (POST "/openai" "{'model':'gpt-4','messages':[]}") OpenAI
           (openai_options "sk-sample"
              (Buffer_byteLength (qq "{'model':'gpt-4','messages':[]}")))
           (qq "{'model':'gpt-4','messages':[]}")).
  - vm_compute. reflexivity.
  - reflexivity.
  - vm_compute. reflexivity.
Defined.

(** One body, arriving in three chunks and in one. *)
Lemma inbound_chunking_irrelevant_witness :
  let req :=
    {| req_method := "POST"; req_url := "/openai";
       req_chunks := [bytes_of (qq "{'model':'gpt-4','messages':[]}")] |} in
  let req' :=
    {| req_method := "POST"; req_url := "/openai";
       req_chunks := [bytes_of (qq "{'model':"); bytes_of (qq "'gpt-4',");
                      bytes_of (qq "'messages':[]}")] |} in
  let evs := [ResponseHead 200; Data (bytes_of "{}"); EndOfResponse] in
  req_method req' = req_method req /\
  req_url req' = req_url req /\
  forallb well_formed (req_chunks req) = true /\
  forallb well_formed (req_chunks req') = true /\
  concat (req_chunks req') = concat (req_chunks req) /\
  run req' evs = run req evs.
Proof.
  pose proof
    (inbound_chunking_irrelevant Reference.JSON_parse Reference.url_parse_pathname
       Reference.Number_toString Reference.https_request_check sample_keys
       {| req_method := "POST"; req_url := "/openai";
          req_chunks := [bytes_of (qq "{'model':'gpt-4','messages':[]}")] |}
       {| req_method := "POST"; req_url := "/openai";
          req_chunks := [bytes_of (qq "{'model':"); bytes_of (qq "'gpt-4',");
                         bytes_of (qq "'messages':[]}")] |}
       [ResponseHead 200; Data (bytes_of "{}"); EndOfResponse]
       eq_refl eq_refl ltac:(vm_compute; reflexivity) ltac:(vm_compute; reflexivity)
       ltac:(vm_compute; reflexivity)) as H.
  repeat split; first [exact H | vm_compute; reflexivity].
Defined.

(** The two bytes of U+00E9, one at the end of a chunk and one at the
    start of the next. *)
Lemma split_two_byte_character_witness :
  let a := bytes_of (qq "{'text':'caf") in
  let b := bytes_of (qq "'}") in
  let split :=
    buffered_body {| req_method := "POST"; req_url := "/openai";
                     req_chunks := [(a ++ [Byte.xc3])%list; Byte.xa9 :: b] |} in
  let whole :=
    buffered_body {| req_method := "POST"; req_url := "/openai";
                     req_chunks := [(a ++ Byte.xc3 :: Byte.xa9 :: b)%list] |} in
  well_formed a = true /\
  well_formed b = true /\
  in_range 194 223 Byte.xc3 = true /\
  in_range 128 191 Byte.xa9 = true /\
  split = string_of_list_byte a ++ REPLACEMENT ++ REPLACEMENT ++ string_of_list_byte b /\
  whole = string_of_list_byte (a ++ Byte.xc3 :: Byte.xa9 :: b) /\
  split <> whole.
Proof.
  pose proof
    (split_two_byte_character "POST" "/openai"
       (bytes_of (qq "{'text':'caf")) (bytes_of (qq "'}")) Byte.xc3 Byte.xa9
       ltac:(vm_compute; reflexivity) ltac:(vm_compute; reflexivity)
       ltac:(vm_compute; reflexivity) ltac:(vm_compute; reflexivity)) as H.
  split; [vm_compute; reflexivity |].
  split; [vm_compute; reflexivity |].
  split; [vm_compute; reflexivity |].
  split; [vm_compute; reflexivity |].
  exact H.
Defined.

(** A rate-limited upstream: the caller's 429 comes with a response head
    and an end among the upstream events. *)
Lemma response_taxonomy_witness :
  let req := POST "/openai" "{'model':'gpt-4','messages':[]}" in
  let evs := [ResponseHead 429; Data (bytes_of (qq "{'error':'slow down'}")); EndOfResponse] in
  let r := {| status := 429;
              headers_set := (cors_headers ++ json_header)%list;
              body := qq "{'error':'slow down'}" |} in
  response_of (req_method req) (res (snd (run req evs))) = Some r /\
  req_method req = "POST" /\
  exists statusCode responseBody,
    In (ResponseHead statusCode) evs /\
    In EndOfResponse evs /\
    (100 <= statusCode <= 999)%Z /\
    r = {| status := statusCode;
           headers_set := (cors_headers ++ json_header)%list;
           body := responseBody |}.
Proof.
  split; [vm_compute; reflexivity |].
  destruct
    (response_taxonomy Reference.JSON_parse Reference.url_parse_pathname
       Reference.Number_toString Reference.https_request_check sample_keys
       (POST "/openai" "{'model':'gpt-4','messages':[]}")
       [ResponseHead 429; Data (bytes_of (qq "{'error':'slow down'}")); EndOfResponse]
       {| status := 429;
          headers_set := (cors_headers ++ json_header)%list;
          body := qq "{'error':'slow down'}" |}
       ltac:(vm_compute; reflexivity))
    as [(_ & H) | [(_ & _ & H) | [(_ & H) | [(_ & H) | [(_ & m & _ & H) | H]]]]];
    try discriminate H.
  exact H.
Defined.


(** The body [null] on the path of OpenAI. *)
Lemma adapter_failure_reported_as_invalid_json_witness :
  let req := POST "/openai" "null" in
  let evs := [ResponseHead 200; EndOfResponse] in
  req_method req = "POST" /\
  Reference.url_parse_pathname (req_url req) = Ok (Some (route OpenAI)) /\
  Reference.JSON_parse (buffered_body req) = Some VNull /\
  nullish VNull = true /\
  run req evs =
    (Ok tt, answered 400 json_header (Some (qq "{'error':'Invalid JSON'}")) [OpenAI]).
Proof.
  pose proof
    (adapter_failure_reported_as_invalid_json Reference.JSON_parse
       Reference.url_parse_pathname Reference.Number_toString
       Reference.https_request_check sample_keys
       (POST "/openai" "null") OpenAI VNull [ResponseHead 200; EndOfResponse]
       eq_refl eq_refl ltac:(vm_compute; reflexivity)) as [_ H].
  repeat split; first [exact (H eq_refl) | vm_compute; reflexivity].
Defined.

(** A relay that was given the keys of OpenAI and Google only. *)
Lemma undefined_key_blocks_anthropic_witness :
  let ks := {| anthropic := None; openai := Some "sk-sample"; google := Some "AIza-sample" |} in
  let req := POST "/anthropic" "{'model':'claude-3','messages':[]}" in
  let evs := [ResponseHead 200; EndOfResponse] in
  (forall o : RequestOptions,
     In ("x-api-key", VUndefined) (headers o) -> Reference.https_request_check o <> None) /\
  anthropic ks = None /\
  req_method req = "POST" /\
  Reference.url_parse_pathname (req_url req) = Ok (Some "/anthropic") /\
  exists ps,
    serve Reference.JSON_parse Reference.url_parse_pathname Reference.Number_toString
      Reference.https_request_check ks req evs =
      (Ok tt, answered 400 json_header (Some (qq "{'error':'Invalid JSON'}")) ps) /\
    outbound
      (snd (serve Reference.JSON_parse Reference.url_parse_pathname
              Reference.Number_toString Reference.https_request_check ks req evs)) = [].
Proof.
  split; [exact (fun o => check_refuses_undefined o "x-api-key") |].
  split; [reflexivity |]. split; [reflexivity |]. split; [reflexivity |].
  exact (undefined_key_blocks_anthropic Reference.JSON_parse
           Reference.url_parse_pathname Reference.Number_toString
           Reference.https_request_check
           {| anthropic := None; openai := Some "sk-sample"; google := Some "AIza-sample" |}
           (POST "/anthropic" "{'model':'claude-3','messages':[]}")
           [ResponseHead 200; EndOfResponse]
           (fun o => check_refuses_undefined o "x-api-key") eq_refl eq_refl eq_refl).
Defined.

End Relay.
